(** * Fundus extraction and segmentation (mindboggle/features/fundi.py)

    A shallow embedding of [extract_fundi] and [segment_fundi] and the
    properties of their label arrays, counts and output files.

    Modelling conventions.
    - Vertex indices are [nat]; label values (fold, sulcus and fundus numbers,
      and the background value) are [Z], numpy integers of 64 bits in the
      source.  The source builds its two output arrays as float64 arrays
      ([background_value * np.ones(n)]) and reads them back with [int(x)]: a
      label assigned to such an array comes back rounded to the nearest
      float64 ([float64_round]), which changes it only beyond 2^53.  A
      float64 that holds an integer is written as that integer, so the arrays
      are [list Z] here.  The background value is a sentinel that float64
      holds exactly (the default is -1): arrays are filled with it and it is
      compared with as it is.
    - Curvature, depth and their product are floating-point numbers.  They are
      kept abstract (type class [Scalar]): the development only relies on
      which operations the code applies to them, never on their arithmetic.
    - Python exceptions are the [Raise] outcomes of the [result] monad.
    - The file system and the working directory form an explicit [world],
      read by [os.path.isfile], [os.path.exists] and [os.getcwd] and changed
      by [rewrite_scalars] only.
    - Functions imported from other mindboggle modules are the fields of the
      interfaces [VtkReader], [VtkWriter] and [FundusTools].
    - Text printed under [verbose] is not modelled. *)

From stdpp Require Import gmap strings list sorting.
From Stdlib Require Import ZArith Ascii.

Local Open Scope Z_scope.

(** ** Exceptions *)

Inductive error : Type :=
  | IOError (msg : string)
  | IndexError
  | ValueError
  | OtherError (msg : string).

Inductive result (A : Type) : Type :=
  | Ok (a : A)
  | Raise (e : error).

Arguments Ok {A} a.
Arguments Raise {A} e.

Global Instance result_ret : MRet result := fun A a => Ok a.

Global Instance result_bind : MBind result := fun A B f m =>
  match m with
  | Ok a => f a
  | Raise e => Raise e
  end.

Definition returns {A : Type} (m : result A) : Prop := exists a, m = Ok a.

(** ** The world: files and working directory *)

Inductive fnode : Type :=
  | RegularFile (content : string)
  | Directory.

Record world : Type := World {
  files : gmap string fnode;
  cwd : string
}.

(** [os.path.isfile] *)
Definition isfile (w : world) (path : string) : bool :=
  match files w !! path with
  | Some (RegularFile _) => true
  | _ => false
  end.

(** [os.path.exists] *)
Definition path_exists (w : world) (path : string) : bool :=
  match files w !! path with
  | Some _ => true
  | None => false
  end.

Fixpoint ends_with_slash (s : string) : bool :=
  match s with
  | EmptyString => false
  | String c EmptyString => bool_decide (c = "/"%char)
  | String _ rest => ends_with_slash rest
  end.

(** [os.path.join(a, b)] of posixpath, for a component [b] that does not
    start with a slash (the two file names used here do not). *)
Definition os_path_join (a b : string) : string :=
  match a with
  | EmptyString => b
  | _ => if ends_with_slash a then a +:+ b else a +:+ "/" +:+ b
  end.

(** ** numpy arrays of labels *)

(** [background_value * np.ones(n)] *)
Definition np_ones_times (bg : Z) (n : nat) : list Z := replicate n bg.

(** [[i for i,x in enumerate(l) if p x]], counting from [k] *)
Fixpoint indices_from (k : nat) (p : Z -> bool) (l : list Z) : list nat :=
  match l with
  | [] => []
  | x :: l' =>
      if p x then k :: indices_from (S k) p l' else indices_from (S k) p l'
  end.

Definition indices_where (p : Z -> bool) (l : list Z) : list nat :=
  indices_from 0 p l.

(** Python's [x != y] and [x == y] on labels *)
Definition label_neq (y x : Z) : bool := bool_decide (x <> y).
Definition label_eq (y x : Z) : bool := bool_decide (x = y).

(** [a[idx]] for a list of indices: IndexError when one is out of range *)
Fixpoint np_take (a : list Z) (idx : list nat) : result (list Z) :=
  match idx with
  | [] => Ok []
  | i :: idx' =>
      match a !! i with
      | Some v => vs ← np_take a idx'; Ok (v :: vs)
      | None => Raise IndexError
      end
  end.

(** [float(z)] for an integer [z], as the integer that this float64 is: [z]
    rounded to 53 significant bits, to the nearest, ties to the even
    mantissa.  (No 64-bit integer is large enough to overflow.) *)
Definition float64_round (z : Z) : Z :=
  let a := Z.abs z in
  if a <? 2 ^ 53 then z
  else
    let e := Z.log2 a - 52 in
    let q := Z.shiftr a e in
    let r := Z.land a (Z.ones e) in
    let half := Z.shiftl 1 (e - 1) in
    let q' := if r <? half then q
              else if half <? r then q + 1
              else if Z.even q then q else q + 1 in
    Z.sgn z * Z.shiftl q' e.

(** What a cell of a float64 array filled with the background value holds
    after the integer [v] was assigned to it: [float(v)].  The background
    value is held exactly, like the cells the array was filled with. *)
Definition float64_label (bg v : Z) : Z :=
  if decide (v = bg) then bg else float64_round v.

(** [a[idx] = vals] for a float64 array [a] filled with [bg], a list of
    indices and as many integer values *)
Fixpoint np_put (bg : Z) (a : list Z) (idx : list nat) (vals : list Z)
  : result (list Z) :=
  match idx, vals with
  | [], [] => Ok a
  | i :: idx', v :: vals' =>
      if decide (i < length a)%nat
      then np_put bg (<[i:=float64_label bg v]> a) idx' vals'
      else Raise IndexError
  | _, _ => Raise ValueError
  end.

(** [a[idx] = v] for a list of indices and one value that float64 holds
    exactly (the source assigns 1) *)
Fixpoint np_fill (a : list Z) (idx : list nat) (v : Z) : result (list Z) :=
  match idx with
  | [] => Ok a
  | i :: idx' =>
      if decide (i < length a)%nat
      then np_fill (<[i:=v]> a) idx' v
      else Raise IndexError
  end.

(** [np.unique]: the sorted list of the distinct values *)
Fixpoint insert_unique (x : Z) (l : list Z) : list Z :=
  match l with
  | [] => [x]
  | y :: l' =>
      if decide (x < y) then x :: y :: l'
      else if decide (x = y) then y :: l'
      else y :: insert_unique x l'
  end.

Definition np_unique (l : list Z) : list Z := foldr insert_unique [] l.

(** [len([x for x in np.unique(a) if x != background_value])] *)
Definition count_labels (bg : Z) (a : list Z) : nat :=
  length (filter (fun x => x <> bg) (np_unique a)).


(** A vertex carries a label other than the background value. *)
Definition nonbackground (bg : Z) (a : list Z) (i : nat) : Prop :=
  exists x, a !! i = Some x /\ x <> bg.

Global Instance nonbackground_dec (bg : Z) (a : list Z) (i : nat) :
  Decision (nonbackground bg a i).
Proof.
  unfold nonbackground. destruct (a !! i) as [x|].
  - destruct (decide (x = bg)) as [Heq|Hne].
    + right. intros (y & Hy & Hne). congruence.
    + left. eauto.
  - right. intros (y & Hy & _). discriminate.
Defined.

(** ** mindboggle.mio.vtks.rewrite_scalars *)

Class VtkWriter : Type := {
  rewrite_scalars :
    world -> string -> string -> list Z -> string -> list Z -> Z ->
    result world
}.

(** ** segment_fundi *)

Section Segment.
Context {WR : VtkWriter}.

(** Lines 305-314: the fundus-per-sulcus array and the number of fundi. *)
Definition segment_labels (fundus_per_fold sulci : list Z)
    (background_value : Z) : result (list Z * nat) :=
  let indices := indices_where (label_neq background_value) fundus_per_fold in
  if bool_decide (indices <> []) && bool_decide (length sulci <> 0%nat) then
    vals ← np_take sulci indices;
    fundus_per_sulcus ←
      np_put background_value
        (np_ones_times background_value (length sulci)) indices vals;
    Ok (fundus_per_sulcus, count_labels background_value fundus_per_sulcus)
  else Ok ([], 0%nat).

(** Lines 326-339: the optional output file. *)
Definition segment_output (w : world) (fundus_per_sulcus : list Z)
    (n_fundi : nat) (vtk_file : string) (save_file : bool)
    (background_value : Z)
  : result (list Z * nat * option string * world) :=
  if bool_decide (0 < n_fundi)%nat then
    if save_file && path_exists w vtk_file then
      let fundus_per_sulcus_file :=
        os_path_join (cwd w) "fundus_per_sulcus.vtk" in
      w' ← rewrite_scalars w vtk_file fundus_per_sulcus_file
             fundus_per_sulcus "fundus_per_sulcus" [] background_value;
      if path_exists w' fundus_per_sulcus_file
      then Ok (fundus_per_sulcus, n_fundi, Some fundus_per_sulcus_file, w')
      else Raise (IOError (fundus_per_sulcus_file +:+ " not found"))
    else Ok (fundus_per_sulcus, n_fundi, None, w)
  else Ok (fundus_per_sulcus, n_fundi, None, w).

Definition segment_fundi (w : world) (fundus_per_fold sulci : list Z)
    (vtk_file : string) (save_file : bool) (background_value : Z)
    (verbose : bool)
  : result (list Z * nat * option string * world) :=
  '(fundus_per_sulcus, n_fundi) ←
    segment_labels fundus_per_fold sulci background_value;
  segment_output w fundus_per_sulcus n_fundi vtk_file save_file
    background_value.

End Segment.

(** ** Floating-point scalars and the mindboggle functions used by
       extract_fundi *)

(** The operations the source applies to curvature, depth and their product:
    [x * y], [x + y], the conversion of a Python integer, the test [x > 0]
    and [np.median]. *)
Class Scalar (V : Type) : Type := {
  vmul : V -> V -> V;
  vadd : V -> V -> V;
  of_int : Z -> V;
  vpos : V -> bool;
  np_median : list V -> V
}.

(** What [read_vtk] returns: points, indices, lines, faces, scalars,
    scalar_names, npoints, input_vtk. *)
Record vtk_data (V : Type) : Type := VtkData {
  vtk_points : list (V * V * V);
  vtk_indices : list nat;
  vtk_lines : list (list nat);
  vtk_faces : list (list nat);
  vtk_scalars : list V;
  vtk_scalar_names : list string;
  vtk_npoints : nat;
  vtk_input : string
}.

Arguments VtkData {V}.
Arguments vtk_points {V}.
Arguments vtk_faces {V}.
Arguments vtk_scalars {V}.
Arguments vtk_npoints {V}.

(** mindboggle.mio.vtks and mindboggle.guts.mesh.find_neighbors_from_file:
    the functions that read files. *)
Class VtkReader (V : Type) : Type := {
  read_vtk : world -> string -> bool -> bool -> result (vtk_data V);
  read_scalars : world -> string -> bool -> bool -> result (list V * string);
  find_neighbors_from_file : world -> string -> result (list (list nat))
}.

(** mindboggle.guts.compute, mindboggle.guts.paths and mindboggle.guts.mesh:
    the functions that compute on arrays. *)
Class FundusTools (V : Type) : Type := {
  median_abs_dev : list V -> V;
  find_max_values : list (V * V * V) -> list V -> Z -> V -> list nat;
  find_outer_endpoints :
    list nat -> list (list nat) -> list V -> list V -> Z -> bool ->
    list nat * list (list nat);
  connect_points_erosion :
    list Z -> list (list nat) -> list nat -> list nat -> list V -> V -> Z ->
    list nat -> string -> Z -> bool -> list nat;
  find_complete_faces : list nat -> list (list nat) -> list nat
}.

(** A call of [find_max_values]: its four arguments. *)
Record finder_call (V : Type) : Type := FinderCall {
  call_points : list (V * V * V);
  call_values : list V;
  call_min_separation : Z;
  call_thr : V
}.

Arguments FinderCall {V}.
Arguments call_points {V}.
Arguments call_values {V}.
Arguments call_min_separation {V}.
Arguments call_thr {V}.

(** [find_max_values(points, values, min_separation, thr)], with a record of
    the call beside its result. *)
Definition recorded_find_max_values {V : Type} {FT : FundusTools V}
    (pts : list (V * V * V)) (vals : list V) (sep : Z) (t : V)
  : list (finder_call V) * list nat :=
  ([FinderCall pts vals sep t], find_max_values pts vals sep t).

(** The same functions with another inner-anchor finder. *)
Definition with_find_max_values {V : Type} (FT : FundusTools V)
    (finder : list (V * V * V) -> list V -> Z -> V -> list nat)
  : FundusTools V := {|
  median_abs_dev := median_abs_dev;
  find_max_values := finder;
  find_outer_endpoints := find_outer_endpoints;
  connect_points_erosion := connect_points_erosion;
  find_complete_faces := find_complete_faces
|}.

(** The skeleton connector returns vertices of the mask it is given: it
    erodes the fold, it adds nothing to it. *)
Definition skeleton_within_mask {V : Type} (FT : FundusTools V) : Prop :=
  forall B nl outer inner vals ratio min_size steps vtk bg verbose x,
    x ∈ connect_points_erosion B nl outer inner vals ratio min_size steps vtk
          bg verbose ->
    nonbackground bg B x.

(** [a * b] on one-dimensional numpy arrays: elementwise, an array of one
    element being broadcast, ValueError for other unequal lengths. *)
Definition np_mul {V : Type} {SC : Scalar V} (a b : list V) : result (list V) :=
  if decide (length a = length b) then Ok (zip_with vmul a b)
  else match a, b with
       | [x], _ => Ok (map (vmul x) b)
       | _, [y] => Ok (map (fun x => vmul x y) a)
       | _, _ => Raise ValueError
       end.

(** What lines 117-129 leave in scope for the rest of the function. *)
Record mesh (V : Type) : Type := Mesh {
  points : list (V * V * V);
  faces : list (list nat);
  npoints : nat;
  depths : list V;
  values : list V;
  thr : V;
  neighbor_lists : list (list nat)
}.

Arguments Mesh {V}.
Arguments points {V}.
Arguments faces {V}.
Arguments npoints {V}.
Arguments depths {V}.
Arguments values {V}.
Arguments thr {V}.
Arguments neighbor_lists {V}.

(** ** extract_fundi *)

Section Extract.
Context {V : Type} {SC : Scalar V} {RD : VtkReader V} {WR : VtkWriter}.

(** [np.median(values0) + 2 * median_abs_dev(values0)] *)
Definition threshold {FT : FundusTools V} (values0 : list V) : V :=
  vadd (np_median values0) (vmul (of_int 2) (median_abs_dev values0)).

(** Lines 117-129: load values, inner anchor threshold, and neighbors.
    Both tests are on [curv_file], as in the source. *)
Definition load_inputs {FT : FundusTools V} (w : world)
    (curv_file depth_file : string) : result (mesh V) :=
  vtk ← (if isfile w curv_file
         then read_vtk w curv_file true true
         else Raise (IOError (curv_file +:+ " doesn't exist!")));
  '(depths, name) ← (if isfile w curv_file
                     then read_scalars w depth_file true true
                     else Raise (IOError (depth_file +:+ " doesn't exist!")));
  values ← np_mul (vtk_scalars vtk) depths;
  let values0 := filter (fun x => vpos x = true) values in
  let thr := threshold values0 in
  neighbor_lists ← find_neighbors_from_file w curv_file;
  Ok (Mesh (vtk_points vtk) (vtk_faces vtk) (vtk_npoints vtk) depths values
        thr neighbor_lists).

(** [[x for x in np.unique(folds) if x != background_value]] *)
Definition unique_fold_IDs (folds : list Z) (background_value : Z) : list Z :=
  filter (fun x => x <> background_value) (np_unique folds).

(** Lines 155-172: the anchors of one fold and the skeleton joining them. *)
Definition fold_skeleton {FT : FundusTools V} (m : mesh V)
    (indices_fold : list nat) (min_separation : Z) (erode_ratio : V)
    (erode_min_size : Z) (background_value : Z) : result (list nat) :=
  let verbose := false in
  let '(outer_anchors, tracks) :=
    find_outer_endpoints indices_fold (neighbor_lists m) (values m)
      (depths m) min_separation verbose in
  let inner_anchors :=
    find_max_values (points m) (values m) min_separation (thr m) in
  B ← np_fill (np_ones_times background_value (npoints m)) indices_fold 1;
  Ok (connect_points_erosion B (neighbor_lists m) outer_anchors
        inner_anchors (values m) erode_ratio erode_min_size [] ""
        background_value verbose).

(** [list(frozenset(skeletons).difference(Iremove))]; the order in which a
    frozenset is listed is not specified, the one chosen here is that of
    first occurrence. *)
Definition frozenset_difference (skeletons Iremove : list nat) : list nat :=
  list_difference (remove_dups skeletons) Iremove.

(** Lines 146-181: the body of the loop over the folds. *)
Definition fold_step {FT : FundusTools V} (m : mesh V) (folds : list Z)
    (min_separation : Z) (erode_ratio : V) (erode_min_size : Z)
    (background_value : Z) (skeletons : list nat) (fold_ID : Z)
  : result (list nat) :=
  let indices_fold := indices_where (label_eq fold_ID) folds in
  if bool_decide (indices_fold <> []) then
    skeleton ← fold_skeleton m indices_fold min_separation erode_ratio
                 erode_min_size background_value;
    let skeletons :=
      if bool_decide (skeleton <> []) then skeletons ++ skeleton
      else skeletons in
    let Iremove := find_complete_faces skeletons (faces m) in
    Ok (if bool_decide (Iremove <> [])
        then frozenset_difference skeletons Iremove
        else skeletons)
  else Ok skeletons.

(** Line 145: [for fold_ID in unique_fold_IDs] *)
Fixpoint fold_loop {FT : FundusTools V} (m : mesh V) (folds : list Z)
    (min_separation : Z) (erode_ratio : V) (erode_min_size : Z)
    (background_value : Z) (fold_IDs : list Z) (skeletons : list nat)
  : result (list nat) :=
  match fold_IDs with
  | [] => Ok skeletons
  | fold_ID :: rest =>
      skeletons' ← fold_step m folds min_separation erode_ratio
                     erode_min_size background_value skeletons fold_ID;
      fold_loop m folds min_separation erode_ratio erode_min_size
        background_value rest skeletons'
  end.

(** The loop once more, now with the calls of [find_max_values] that it
    makes, in the order it makes them: each definition is the one above with
    [recorded_find_max_values] at the place of the call (line 162), and hands
    on the calls made up to an exception. *)
Definition fold_skeleton_calls {FT : FundusTools V} (m : mesh V)
    (indices_fold : list nat) (min_separation : Z) (erode_ratio : V)
    (erode_min_size : Z) (background_value : Z)
  : list (finder_call V) * result (list nat) :=
  let verbose := false in
  let '(outer_anchors, tracks) :=
    find_outer_endpoints indices_fold (neighbor_lists m) (values m)
      (depths m) min_separation verbose in
  let '(calls, inner_anchors) :=
    recorded_find_max_values (points m) (values m) min_separation (thr m) in
  (calls,
   B ← np_fill (np_ones_times background_value (npoints m)) indices_fold 1;
   Ok (connect_points_erosion B (neighbor_lists m) outer_anchors
         inner_anchors (values m) erode_ratio erode_min_size [] ""
         background_value verbose)).

Definition fold_step_calls {FT : FundusTools V} (m : mesh V) (folds : list Z)
    (min_separation : Z) (erode_ratio : V) (erode_min_size : Z)
    (background_value : Z) (skeletons : list nat) (fold_ID : Z)
  : list (finder_call V) * result (list nat) :=
  let indices_fold := indices_where (label_eq fold_ID) folds in
  if bool_decide (indices_fold <> []) then
    let '(calls, found) :=
      fold_skeleton_calls m indices_fold min_separation erode_ratio
        erode_min_size background_value in
    (calls,
     skeleton ← found;
     let skeletons :=
       if bool_decide (skeleton <> []) then skeletons ++ skeleton
       else skeletons in
     let Iremove := find_complete_faces skeletons (faces m) in
     Ok (if bool_decide (Iremove <> [])
         then frozenset_difference skeletons Iremove
         else skeletons))
  else ([], Ok skeletons).

Fixpoint fold_loop_calls {FT : FundusTools V} (m : mesh V) (folds : list Z)
    (min_separation : Z) (erode_ratio : V) (erode_min_size : Z)
    (background_value : Z) (fold_IDs : list Z) (skeletons : list nat)
  : list (finder_call V) * result (list nat) :=
  match fold_IDs with
  | [] => ([], Ok skeletons)
  | fold_ID :: rest =>
      let '(calls, stepped) :=
        fold_step_calls m folds min_separation erode_ratio erode_min_size
          background_value skeletons fold_ID in
      match stepped with
      | Ok skeletons' =>
          let '(calls', looped) :=
            fold_loop_calls m folds min_separation erode_ratio erode_min_size
              background_value rest skeletons' in
          (calls ++ calls', looped)
      | Raise e => (calls, Raise e)
      end
  end.

(** The folds for which [connect_points_erosion] gave a skeleton that is
    not empty, among the folds the loop goes through. *)
Definition produced_skeleton {FT : FundusTools V} (m : mesh V)
    (folds : list Z) (min_separation : Z) (erode_ratio : V)
    (erode_min_size : Z) (background_value : Z) (fold_ID : Z) : bool :=
  match fold_skeleton m (indices_where (label_eq fold_ID) folds) min_separation
          erode_ratio erode_min_size background_value with
  | Ok (_ :: _) => true
  | _ => false
  end.


(** Line 183: [[x for x in skeletons if folds[x] != background_value]] *)
Fixpoint skeleton_in_folds (folds : list Z) (background_value : Z)
    (skeletons : list nat) : result (list nat) :=
  match skeletons with
  | [] => Ok []
  | x :: rest =>
      match folds !! x with
      | Some v =>
          rest' ← skeleton_in_folds folds background_value rest;
          Ok (if label_neq background_value v then x :: rest' else rest')
      | None => Raise IndexError
      end
  end.

(** Lines 183-187: the fundus-per-fold array and the number of fundi. *)
Definition label_fundi (npoints : nat) (folds : list Z)
    (background_value : Z) (skeletons : list nat) : result (list Z * nat) :=
  indices_skel ← skeleton_in_folds folds background_value skeletons;
  vals ← np_take folds indices_skel;
  fundus_per_fold ←
    np_put background_value (np_ones_times background_value npoints)
      indices_skel vals;
  Ok (fundus_per_fold, count_labels background_value fundus_per_fold).

(** Lines 113-187. *)
Definition extract_labels {FT : FundusTools V} (w : world) (folds : list Z)
    (curv_file depth_file : string) (min_separation : Z) (erode_ratio : V)
    (erode_min_size : Z) (background_value : Z) : result (list Z * nat) :=
  m ← load_inputs w curv_file depth_file;
  skeletons ← fold_loop m folds min_separation erode_ratio erode_min_size
                background_value (unique_fold_IDs folds background_value) [];
  label_fundi (npoints m) folds background_value skeletons.

(** Lines 199-210: the optional output file. *)
Definition extract_output (w : world) (curv_file : string)
    (fundus_per_fold : list Z) (n_fundi_in_folds : nat) (save_file : bool)
    (background_value : Z)
  : result (list Z * nat * option string * world) :=
  if bool_decide (0 < n_fundi_in_folds)%nat then
    if save_file then
      let fundus_per_fold_file :=
        os_path_join (cwd w) "fundus_per_fold.vtk" in
      w' ← rewrite_scalars w curv_file fundus_per_fold_file
             fundus_per_fold "fundi" [] background_value;
      if path_exists w' fundus_per_fold_file
      then Ok (fundus_per_fold, n_fundi_in_folds,
               Some fundus_per_fold_file, w')
      else Raise (IOError (fundus_per_fold_file +:+ " not found"))
    else Ok (fundus_per_fold, n_fundi_in_folds, None, w)
  else Ok (fundus_per_fold, n_fundi_in_folds, None, w).

Definition extract_fundi {FT : FundusTools V} (w : world) (folds : list Z)
    (curv_file depth_file : string) (min_separation : Z) (erode_ratio : V)
    (erode_min_size : Z) (save_file : bool) (background_value : Z)
    (verbose : bool)
  : result (list Z * nat * option string * world) :=
  '(fundus_per_fold, n_fundi_in_folds) ←
    extract_labels w folds curv_file depth_file min_separation erode_ratio
      erode_min_size background_value;
  extract_output w curv_file fundus_per_fold n_fundi_in_folds save_file
    background_value.

End Extract.

(** ** A small mesh and stand-ins for the imported functions

    Six vertices and four triangles, integer scalars in place of floats, and
    simple total functions in place of the mindboggle routines.  They serve
    to run the definitions above on concrete inputs. *)

Module Fixtures.

Definition median_Z (l : list Z) : Z :=
  let s := merge_sort Z.le l in
  let n := length s in
  if decide (n = 0)%nat then 0
  else if Nat.even n
       then (default 0 (s !! (n / 2 - 1)%nat) + default 0 (s !! (n / 2)%nat))
            / 2
       else default 0 (s !! (n / 2)%nat).

Definition scalar_Z : Scalar Z := {|
  vmul := Z.mul;
  vadd := Z.add;
  of_int := fun z => z;
  vpos := fun x => bool_decide (0 < x);
  np_median := median_Z
|}.

Definition curv_mesh : vtk_data Z :=
  VtkData
    [(0, 0, 0); (1, 0, 0); (0, 1, 0); (1, 1, 0); (2, 0, 0); (2, 1, 0)]
    [0; 1; 2; 3; 4; 5]%nat
    []
    [[0; 1; 2]; [1; 3; 2]; [1; 4; 3]; [4; 5; 3]]%nat
    [1; 2; 3; 4; 5; 6]
    ["curv"%string]
    6%nat
    "/data/lh.curv.vtk".

Definition no_mesh : vtk_data Z := VtkData [] [] [] [] [] [] 0%nat "".

(** A reader in the manner of a VTK reader object: a path that is not a
    file yields no data rather than an exception. *)
Definition reader : VtkReader Z := {|
  read_vtk := fun w path _ _ =>
    if isfile w path then Ok curv_mesh else Ok no_mesh;
  read_scalars := fun w path _ _ =>
    if isfile w path then Ok ([2; 1; 3; 1; 2; 1], "depth"%string)
    else Ok ([], ""%string);
  find_neighbors_from_file := fun w path =>
    Ok [[1; 2]; [0; 2; 3; 4]; [0; 1; 3]; [1; 2; 4; 5]; [1; 3; 5]; [3; 4]]%nat
|}.

(** A writer that creates the output file, and one that does not. *)
Definition writer : VtkWriter := {|
  rewrite_scalars := fun w input output labels name _ _ =>
    Ok (World (<[output := RegularFile name]> (files w)) (cwd w))
|}.

Definition silent_writer : VtkWriter := {|
  rewrite_scalars := fun w _ _ _ _ _ _ => Ok w
|}.

Definition face_in (skeleton : list nat) (face : list nat) : bool :=
  forallb (fun v => bool_decide (v ∈ skeleton)) face.

(** The skeleton of a fold is the whole fold; a face covered by the
    skeleton gives up its first vertex. *)
Definition tools : FundusTools Z := {|
  median_abs_dev := fun l =>
    median_Z (map (fun x => Z.abs (x - median_Z l)) l);
  find_max_values := fun _ vals _ t =>
    indices_where (fun x => bool_decide (t < x)) vals;
  find_outer_endpoints := fun indices _ _ _ _ _ =>
    (take 1 indices ++ drop (length indices - 1) indices, []);
  connect_points_erosion := fun B _ _ _ _ _ _ _ _ bg _ =>
    indices_where (label_neq bg) B;
  find_complete_faces := fun skeleton fs =>
    flat_map (fun f => if face_in skeleton f then take 1 f else []) fs
|}.

(** Stand-ins whose skeleton depends on the anchors: the skeleton of a fold
    is made of its first vertex (the outer anchor) and of its vertices that
    are inner anchors; a vertex is an inner anchor when twice its value
    exceeds the threshold. *)
Definition anchored_tools : FundusTools Z := {|
  median_abs_dev := fun l =>
    median_Z (map (fun x => Z.abs (x - median_Z l)) l);
  find_max_values := fun _ vals _ t =>
    indices_where (fun x => bool_decide (t < 2 * x)) vals;
  find_outer_endpoints := fun indices _ _ _ _ _ => (take 1 indices, []);
  connect_points_erosion := fun B _ outer inner _ _ _ _ _ bg _ =>
    filter (fun i => i ∈ outer \/ i ∈ inner) (indices_where (label_neq bg) B);
  find_complete_faces := fun skeleton fs =>
    flat_map (fun f => if face_in skeleton f then take 1 f else []) fs
|}.

(** A finder that agrees with the one of [anchored_tools] at the threshold
    11 and finds nothing at any other threshold, and one that finds nothing
    at all. *)
Definition anchored_finder_at_11 (pts : list (Z * Z * Z)) (vals : list Z)
    (sep t : Z) : list nat :=
  if decide (t = 11)
  then indices_where (fun x => bool_decide (11 < 2 * x)) vals
  else [].

Definition finder_of_nothing (pts : list (Z * Z * Z)) (vals : list Z)
    (sep t : Z) : list nat := [].

(** A finder that agrees with the one of [tools] at the threshold 11 and
    nowhere else. *)
Definition other_finder (pts : list (Z * Z * Z)) (vals : list Z) (sep t : Z)
  : list nat :=
  if decide (t = 11) then indices_where (fun x => bool_decide (11 < x)) vals
  else [0; 1; 2; 3; 4; 5]%nat.

Definition disk : world :=
  World (<["/data/lh.curv.vtk"%string := RegularFile "curv"]>
         (<["/data/lh.depth.vtk"%string := RegularFile "depth"]>
          (<["/data/lh.sulci.vtk"%string := RegularFile "sulci"]> ∅)))
        "/work".

(** The same, without the depth file. *)
Definition disk_without_depth : world :=
  World (<["/data/lh.curv.vtk"%string := RegularFile "curv"]> ∅) "/work".

Definition folds : list Z := [7; 7; 7; -1; 9; 9].
Definition sulci : list Z := [3; 3; 4; 4; -1; 5; 5; 5].

(** What the stand-ins give on these inputs. *)
Definition fundus_per_fold : list Z := [-1; 7; 7; -1; 9; 9].
Definition fundus_per_sulcus : list Z := [-1; 3; 4; -1; -1; 5; -1; -1].

End Fixtures.

(** * The definitions on small inputs *)

Example np_unique_sorts : np_unique [3; 1; 3; -1; 1] = [-1; 1; 3].
Proof. reflexivity. Qed.

Example count_labels_skips_background :
  count_labels (-1) [3; 1; 3; -1; 1] = 2%nat.
Proof. reflexivity. Qed.

Example indices_where_enumerates :
  indices_where (label_neq (-1)) [-1; 7; 7; -1; 9; 9] = [1; 2; 4; 5]%nat.
Proof. reflexivity. Qed.

Example float64_round_ties_to_even :
  float64_round 9007199254740993 = 9007199254740992 /\
  float64_round 9007199254740995 = 9007199254740996 /\
  float64_round (-9007199254740993) = -9007199254740992 /\
  float64_round 9007199254740992 = 9007199254740992 /\
  float64_round 9223372036854775807 = 9223372036854775808.
Proof. repeat split; reflexivity. Qed.

Example np_put_rounds :
  np_put (-1) [-1; -1; -1] [0; 2]%nat [9007199254740993; 7]
  = Ok [9007199254740992; -1; 7].
Proof. reflexivity. Qed.

Example np_put_out_of_range :
  np_put 0 [0; 0; 0] [1; 3]%nat [5; 6] = Raise IndexError.
Proof. reflexivity. Qed.

Example os_path_join_adds_slash :
  os_path_join "/work" "fundus_per_fold.vtk"
  = "/work/fundus_per_fold.vtk"%string /\
  os_path_join "/work/" "fundus_per_fold.vtk"
  = "/work/fundus_per_fold.vtk"%string.
Proof. split; reflexivity. Qed.

Example fixture_threshold :
  threshold (SC:=Fixtures.scalar_Z) (FT:=Fixtures.tools) [2; 2; 9; 4; 10; 6]
  = 11.
Proof. reflexivity. Qed.

(** * Properties of the array operations *)

Lemma bind_Ok {A B : Type} (m : result A) (f : A -> result B) (b : B) :
  m ≫= f = Ok b -> exists a, m = Ok a /\ f a = Ok b.
Proof. destruct m as [a|e]; simpl; [eauto | discriminate]. Qed.

Ltac inv_bind H :=
  let a := fresh "a" in
  let Ha := fresh "Ha" in
  apply bind_Ok in H; destruct H as (a & Ha & H).

Lemma elem_of_indices_from (p : Z -> bool) (l : list Z) (k i : nat) :
  i ∈ indices_from k p l <->
  (k <= i)%nat /\ exists x, l !! (i - k)%nat = Some x /\ p x = true.
Proof.
  revert k. induction l as [|y l IH]; intros k; simpl.
  - rewrite elem_of_nil. split; [done | intros (_ & x & Hx & _); done].
  - assert (Hrest : i ∈ indices_from (S k) p l <->
              (k < i)%nat /\ exists x, (y :: l) !! (i - k)%nat = Some x /\
                                       p x = true).
    { rewrite IH. split.
      - intros (Hle & x & Hx & Hp). split; [lia |]. exists x. split; [|done].
        replace (i - k)%nat with (S (i - S k)) by lia. done.
      - intros (Hlt & x & Hx & Hp). split; [lia |]. exists x. split; [|done].
        replace (i - k)%nat with (S (i - S k)) in Hx by lia. done. }
    destruct (p y) eqn:Hy.
    + rewrite elem_of_cons, Hrest. split.
      * intros [-> | (Hlt & Hx)].
        -- split; [lia |]. exists y. by rewrite Nat.sub_diag.
        -- split; [lia | done].
      * intros (Hle & Hx). destruct (decide (i = k)) as [->|Hne]; [by left |].
        right. split; [lia | done].
    + rewrite Hrest. split.
      * intros (Hlt & Hx). split; [lia | done].
      * intros (Hle & x & Hx & Hp). destruct (decide (i = k)) as [->|Hne].
        -- rewrite Nat.sub_diag in Hx. simpl in Hx. congruence.
        -- split; [lia | eauto].
Qed.

Lemma elem_of_indices_neq (bg : Z) (a : list Z) (i : nat) :
  i ∈ indices_where (label_neq bg) a <-> nonbackground bg a i.
Proof.
  unfold indices_where, nonbackground, label_neq.
  rewrite elem_of_indices_from, Nat.sub_0_r.
  split.
  - intros (_ & x & Hx & Hp). apply bool_decide_eq_true in Hp. eauto.
  - intros (x & Hx & Hp). split; [lia |]. exists x.
    by rewrite bool_decide_eq_true.
Qed.

Lemma elem_of_indices_eq (v : Z) (a : list Z) (i : nat) :
  i ∈ indices_where (label_eq v) a <-> a !! i = Some v.
Proof.
  unfold indices_where, label_eq.
  rewrite elem_of_indices_from, Nat.sub_0_r.
  split.
  - intros (_ & x & Hx & Hp). apply bool_decide_eq_true in Hp. by subst.
  - intros Hx. split; [lia |]. exists v. by rewrite bool_decide_eq_true.
Qed.

Lemma np_take_Ok (a : list Z) (idx : list nat) (vs : list Z) :
  np_take a idx = Ok vs -> Forall2 (fun i v => a !! i = Some v) idx vs.
Proof.
  revert vs. induction idx as [|i idx IH]; intros vs Hvs; simpl in Hvs.
  - injection Hvs as <-. constructor.
  - destruct (a !! i) as [v|] eqn:Hi; [|discriminate].
    inv_bind Hvs. injection Hvs as <-. constructor; auto.
Qed.

Lemma np_take_total (a : list Z) (idx : list nat) :
  Forall (fun i => i < length a)%nat idx -> returns (np_take a idx).
Proof.
  induction 1 as [|i idx Hi _ [vs IH]]; simpl.
  - by eexists.
  - destruct (lookup_lt_is_Some_2 a i Hi) as [v ->]. rewrite IH. by eexists.
Qed.

Lemma np_take_Raise (a : list Z) (idx : list nat) (i : nat) :
  i ∈ idx -> (length a <= i)%nat -> np_take a idx = Raise IndexError.
Proof.
  intros Hin Hge. induction idx as [|j idx IH]; [by apply elem_of_nil in Hin|].
  simpl. destruct (a !! j) as [v|] eqn:Hj; [|done].
  apply elem_of_cons in Hin as [->|Hin].
  - apply lookup_lt_Some in Hj. lia.
  - by rewrite IH.
Qed.



Lemma float64_label_round (bg v : Z) :
  v <> bg -> float64_label bg v = float64_round v.
Proof. intros Hv. unfold float64_label. by rewrite decide_False. Qed.

Lemma float64_label_background (bg : Z) : float64_label bg bg = bg.
Proof. unfold float64_label. by rewrite decide_True. Qed.

(** After [a[idx] = src[idx]] the array holds the float64 of [src] at the
    indices of [idx] and is unchanged elsewhere. *)
Lemma np_put_Ok (bg : Z) (src a : list Z) (idx : list nat) (vals b : list Z) :
  Forall2 (fun i v => src !! i = Some v) idx vals ->
  np_put bg a idx vals = Ok b ->
  length b = length a /\
  Forall (fun i => i < length a)%nat idx /\
  forall j, b !! j = if decide (j ∈ idx)
                     then float64_label bg <$> src !! j
                     else a !! j.
Proof.
  intros Hsrc. revert a.
  induction Hsrc as [|i v idx vals Hi _ IH]; intros a Hput; simpl in Hput.
  - injection Hput as <-. split; [done |]. split; [constructor |].
    intros j. destruct (decide (j ∈ [])) as [Hin|]; [|done].
    by apply elem_of_nil in Hin.
  - destruct (decide (i < length a)%nat) as [Hlt|]; [|discriminate].
    destruct (IH _ Hput) as (Hlen & Hall & Hlook).
    rewrite length_insert in Hlen, Hall.
    split; [done |]. split; [by constructor |].
    intros j. rewrite Hlook.
    destruct (decide (j ∈ idx)) as [Hin|Hnin].
    + rewrite decide_True; [done | by right].
    + destruct (decide (j = i)) as [->|Hne].
      * rewrite decide_True by left.
        by rewrite list_lookup_insert_eq, Hi.
      * rewrite decide_False.
        -- by rewrite list_lookup_insert_ne.
        -- rewrite elem_of_cons. tauto.
Qed.

Lemma np_put_total (bg : Z) (a : list Z) (idx : list nat) (vals : list Z) :
  length idx = length vals ->
  Forall (fun i => i < length a)%nat idx -> returns (np_put bg a idx vals).
Proof.
  intros Hlen Hall. revert vals a Hlen Hall.
  induction idx as [|i idx IH]; intros [|v vals] a Hlen Hall;
    simpl in *; try discriminate.
  - by eexists.
  - inversion Hall; subst. rewrite decide_True by done.
    apply IH; [lia |]. by rewrite length_insert.
Qed.

(** After [a[idx] = v] the array holds [v] at the indices of [idx] and is
    unchanged elsewhere. *)
Lemma np_fill_Ok (a : list Z) (idx : list nat) (v : Z) (b : list Z) :
  np_fill a idx v = Ok b ->
  length b = length a /\
  forall j, b !! j =
            if decide (j ∈ idx) then Some v else a !! j.
Proof.
  revert a. induction idx as [|i idx IH]; intros a Hfill; simpl in Hfill.
  - injection Hfill as <-. split; [done |].
    intros j. destruct (decide (j ∈ [])) as [Hin|]; [|done].
    by apply elem_of_nil in Hin.
  - destruct (decide (i < length a)%nat) as [Hlt|]; [|discriminate].
    destruct (IH _ Hfill) as (Hlen & Hlook).
    rewrite length_insert in Hlen. split; [done |].
    intros j. rewrite Hlook.
    destruct (decide (j ∈ idx)) as [Hin|Hnin].
    + rewrite decide_True; [done | by right].
    + destruct (decide (j = i)) as [->|Hne].
      * rewrite decide_True by left. by rewrite list_lookup_insert_eq.
      * rewrite decide_False.
        -- by rewrite list_lookup_insert_ne.
        -- rewrite elem_of_cons. tauto.
Qed.

(** * Properties of [np_unique] and of the count of labels *)

Lemma elem_of_insert_unique (x y : Z) (l : list Z) :
  y ∈ insert_unique x l <-> y = x \/ y ∈ l.
Proof.
  induction l as [|z l IH]; simpl.
  - rewrite list_elem_of_singleton, elem_of_nil. tauto.
  - destruct (decide (x < z)); [by rewrite elem_of_cons |].
    destruct (decide (x = z)) as [->|].
    + rewrite elem_of_cons. tauto.
    + rewrite !elem_of_cons, IH. tauto.
Qed.

Lemma insert_unique_sorted (x : Z) (l : list Z) :
  StronglySorted Z.lt l -> StronglySorted Z.lt (insert_unique x l).
Proof.
  induction 1 as [|z l Hl IH Hz]; simpl.
  - repeat constructor.
  - destruct (decide (x < z)) as [Hlt|Hge].
    + constructor; [by constructor |].
      constructor; [done |].
      eapply Forall_impl; [exact Hz | intros; simpl in *; lia].
    + destruct (decide (x = z)) as [->|Hne]; [by constructor |].
      constructor; [done |].
      apply Forall_forall. intros y Hy.
      apply elem_of_insert_unique in Hy as [->|Hy]; [lia |].
      by eapply Forall_forall in Hz.
Qed.

Lemma elem_of_np_unique (x : Z) (l : list Z) : x ∈ np_unique l <-> x ∈ l.
Proof.
  unfold np_unique. induction l as [|y l IH]; simpl; [done |].
  rewrite elem_of_insert_unique, elem_of_cons, IH. tauto.
Qed.

Lemma np_unique_sorted (l : list Z) : StronglySorted Z.lt (np_unique l).
Proof.
  unfold np_unique. induction l as [|y l IH]; simpl.
  - constructor.
  - by apply insert_unique_sorted.
Qed.

Lemma sorted_lt_NoDup (l : list Z) : StronglySorted Z.lt l -> NoDup l.
Proof.
  induction 1 as [|z l Hl IH Hz]; constructor; [|done].
  intros Hin. eapply Forall_forall in Hz; [|exact Hin]. lia.
Qed.

Lemma np_unique_NoDup (l : list Z) : NoDup (np_unique l).
Proof. apply sorted_lt_NoDup, np_unique_sorted. Qed.




Lemma count_labels_background (bg : Z) (a : list Z) :
  Forall (fun x => x = bg) a -> count_labels bg a = 0%nat.
Proof.
  intros Hall. unfold count_labels.
  rewrite (elem_of_nil_inv (filter (fun x => x <> bg) (np_unique a)));
    [done |].
  intros x. rewrite list_elem_of_filter, elem_of_np_unique.
  intros (Hne & Hin). eapply Forall_forall in Hall; [|exact Hin]. done.
Qed.

(** * segment_fundi *)

Section SegmentFacts.
Context {WR : VtkWriter}.

Lemma indices_nonempty (bg : Z) (a : list Z) :
  indices_where (label_neq bg) a <> [] <-> exists i, nonbackground bg a i.
Proof.
  split.
  - destruct (indices_where (label_neq bg) a) as [|i l] eqn:Hidx; [done |].
    intros _. exists i. apply elem_of_indices_neq. rewrite Hidx. by left.
  - intros [i Hi] Hnil. apply elem_of_indices_neq in Hi.
    rewrite Hnil in Hi. by apply elem_of_nil in Hi.
Qed.

(** The two branches of lines 307-314. *)
Lemma segment_labels_inv (fundus_per_fold sulci : list Z) (bg : Z)
    (out : list Z) (n : nat) :
  segment_labels fundus_per_fold sulci bg = Ok (out, n) ->
  n = count_labels bg out /\
  (((exists i, nonbackground bg fundus_per_fold i) /\ sulci <> [] /\
    length out = length sulci /\
    (forall i, nonbackground bg fundus_per_fold i ->
               (i < length sulci)%nat /\
               out !! i = float64_label bg <$> sulci !! i) /\
    (forall i, ~ nonbackground bg fundus_per_fold i ->
               (i < length sulci)%nat -> out !! i = Some bg))
   \/
   (((~ exists i, nonbackground bg fundus_per_fold i) \/ sulci = []) /\
    out = [])).
Proof.
  unfold segment_labels. intros Hseg.
  destruct (bool_decide (indices_where (label_neq bg) fundus_per_fold <> []))
    eqn:Hidx; simpl in Hseg.
  - apply bool_decide_eq_true in Hidx.
    destruct (bool_decide (length sulci <> 0%nat)) eqn:Hsul; simpl in Hseg.
    + apply bool_decide_eq_true in Hsul.
      inv_bind Hseg. rename a into vals. inv_bind Hseg.
      injection Hseg as -> <-. split; [done |]. left.
      pose proof (np_put_Ok _ _ _ _ _ _ (np_take_Ok _ _ _ Ha) Ha0)
        as (Hlen & Hall & Hlook).
      unfold np_ones_times in *. rewrite length_replicate in Hlen, Hall.
      split; [by apply indices_nonempty |].
      split; [by destruct sulci |].
      split; [done |]. split.
      * intros i Hi. apply elem_of_indices_neq in Hi.
        split; [by eapply Forall_forall in Hall |].
        by rewrite Hlook, decide_True.
      * intros i Hi Hlt. rewrite Hlook, decide_False.
        -- by apply lookup_replicate_2.
        -- by rewrite elem_of_indices_neq.
    + apply bool_decide_eq_false in Hsul.
      injection Hseg as <- <-. split; [done |]. right. split; [|done].
      right. destruct sulci; [done |]. simpl in Hsul. exfalso.
      apply Hsul. done.
  - apply bool_decide_eq_false in Hidx.
    injection Hseg as <- <-. split; [done |]. right. split; [|done].
    left. by rewrite <- indices_nonempty.
Qed.

(** The output step hands back the array and the count unchanged. *)
Lemma segment_output_Ok (w w' : world) (a out : list Z) (k n : nat)
    (vtk_file : string) (save_file : bool) (bg : Z) (path : option string) :
  segment_output w a k vtk_file save_file bg = Ok (out, n, path, w') ->
  out = a /\ n = k.
Proof.
  unfold segment_output. intros Hout.
  destruct (bool_decide (0 < k)%nat); [|by injection Hout as <- <- _ _].
  destruct (save_file && path_exists w vtk_file);
    [|by injection Hout as <- <- _ _].
  inv_bind Hout.
  destruct (path_exists a0 _); [|discriminate].
  by injection Hout as <- <- _ _.
Qed.

Lemma segment_fundi_Ok (w w' : world) (fundus_per_fold sulci out : list Z)
    (vtk_file : string) (save_file verbose : bool) (bg : Z) (n : nat)
    (path : option string) :
  segment_fundi w fundus_per_fold sulci vtk_file save_file bg verbose
    = Ok (out, n, path, w') ->
  segment_labels fundus_per_fold sulci bg = Ok (out, n).
Proof.
  unfold segment_fundi. intros Hseg. inv_bind Hseg.
  destruct a as [a k]. apply segment_output_Ok in Hseg as [-> ->]. done.
Qed.


Lemma segment_labels_total (fundus_per_fold sulci : list Z) (bg : Z) :
  (forall i, nonbackground bg fundus_per_fold i -> (i < length sulci)%nat) ->
  returns (segment_labels fundus_per_fold sulci bg).
Proof.
  intros Hvalid. unfold segment_labels.
  destruct (_ && _); [|by eexists].
  assert (Hall : Forall (fun i => i < length sulci)%nat
                   (indices_where (label_neq bg) fundus_per_fold)).
  { apply Forall_forall. intros i Hi. by apply Hvalid, elem_of_indices_neq. }
  destruct (np_take_total _ _ Hall) as [vals Hvals]. rewrite Hvals. simpl.
  destruct (np_put_total bg (np_ones_times bg (length sulci))
              (indices_where (label_neq bg) fundus_per_fold) vals) as [b Hb].
  - by eapply Forall2_length, np_take_Ok.
  - unfold np_ones_times. by rewrite length_replicate.
  - rewrite Hb. by eexists.
Qed.

Lemma segment_labels_Raise (fundus_per_fold sulci : list Z) (bg : Z)
    (i : nat) :
  sulci <> [] -> nonbackground bg fundus_per_fold i ->
  (length sulci <= i)%nat ->
  segment_labels fundus_per_fold sulci bg = Raise IndexError.
Proof.
  intros Hsul Hi Hge. unfold segment_labels.
  rewrite bool_decide_eq_true_2 by (apply indices_nonempty; eauto).
  rewrite bool_decide_eq_true_2 by (by destruct sulci).
  simpl. rewrite (np_take_Raise _ _ i); [done | | done].
  by apply elem_of_indices_neq.
Qed.

End SegmentFacts.






(** C9.  The array and the count returned by [segment_fundi] are a function
    of [fundus_per_fold], the sulcus labeling and the background value alone:
    two calls that agree on these three return the same array and the same
    count, whatever the file system, the working directory, the file name
    and the flags of each call. *)
Theorem segment_fundi_deterministic {WR : VtkWriter} (w1 w2 w1' w2' : world)
    (fundus_per_fold sulci : list Z) (bg : Z) (vtk_file1 vtk_file2 : string)
    (save_file1 save_file2 verbose1 verbose2 : bool) (out1 out2 : list Z)
    (n1 n2 : nat) (path1 path2 : option string) :
  segment_fundi w1 fundus_per_fold sulci vtk_file1 save_file1 bg verbose1
    = Ok (out1, n1, path1, w1') ->
  segment_fundi w2 fundus_per_fold sulci vtk_file2 save_file2 bg verbose2
    = Ok (out2, n2, path2, w2') ->
  out1 = out2 /\ n1 = n2.
Proof.
  intros H1 H2. apply segment_fundi_Ok in H1, H2.
  rewrite H1 in H2. by injection H2 as -> ->.
Qed.

Lemma segment_fundi_deterministic_witness :
  exists w',
    segment_fundi (WR:=Fixtures.writer) Fixtures.disk
      Fixtures.fundus_per_fold Fixtures.sulci "/data/lh.sulci.vtk" true (-1)
      false
      = Ok (Fixtures.fundus_per_sulcus, 3%nat,
            Some "/work/fundus_per_sulcus.vtk"%string, w') /\
    segment_fundi (WR:=Fixtures.writer) Fixtures.disk_without_depth
      Fixtures.fundus_per_fold Fixtures.sulci "/data/lh.sulci.vtk" true (-1)
      true
      = Ok (Fixtures.fundus_per_sulcus, 3%nat, None,
            Fixtures.disk_without_depth) /\
    Fixtures.fundus_per_sulcus = Fixtures.fundus_per_sulcus /\ 3%nat = 3%nat.
Proof.
  eexists.
  assert (H1 : segment_fundi (WR:=Fixtures.writer) Fixtures.disk
                 Fixtures.fundus_per_fold Fixtures.sulci "/data/lh.sulci.vtk"
                 true (-1) false
               = Ok (Fixtures.fundus_per_sulcus, 3%nat,
                     Some "/work/fundus_per_sulcus.vtk"%string, _))
    by (vm_compute; reflexivity).
  assert (H2 : segment_fundi (WR:=Fixtures.writer)
                 Fixtures.disk_without_depth Fixtures.fundus_per_fold
                 Fixtures.sulci "/data/lh.sulci.vtk" true (-1) true
               = Ok (Fixtures.fundus_per_sulcus, 3%nat, None,
                     Fixtures.disk_without_depth)) by reflexivity.
  split; [exact H1 |]. split; [exact H2 |].
  exact (segment_fundi_deterministic _ _ _ _ _ _ _ _ _ _ _ _ _ _ _ _ _ _ _
           H1 H2).
Defined.

(** C10.  When some vertex of [fundus_per_fold] is not background and the
    sulcus labeling is not empty: every array that [segment_fundi] returns
    has the length of the sulcus labeling, and the call returns only if every
    non-background index of [fundus_per_fold] is an index of the sulcus
    labeling; it raises IndexError when one is not, and it does return when
    all are and no file is to be saved. *)
Theorem segment_fundi_length {WR : VtkWriter} (w : world)
    (fundus_per_fold sulci : list Z) (vtk_file : string) (save_file : bool)
    (bg : Z) (verbose : bool) :
  (exists i, nonbackground bg fundus_per_fold i) -> sulci <> [] ->
  (forall out n path w',
     segment_fundi w fundus_per_fold sulci vtk_file save_file bg verbose
       = Ok (out, n, path, w') ->
     length out = length sulci /\
     forall i, nonbackground bg fundus_per_fold i -> (i < length sulci)%nat)
  /\
  ((exists i, nonbackground bg fundus_per_fold i /\ (length sulci <= i)%nat) ->
   segment_fundi w fundus_per_fold sulci vtk_file save_file bg verbose
     = Raise IndexError)
  /\
  ((forall i, nonbackground bg fundus_per_fold i -> (i < length sulci)%nat) ->
   save_file = false ->
   returns
     (segment_fundi w fundus_per_fold sulci vtk_file save_file bg verbose)).
Proof.
  intros Hsome Hsul. split; [|split].
  - intros out n path w' Hseg.
    apply segment_fundi_Ok, segment_labels_inv in Hseg as (_ & Hcases).
    destruct Hcases as [(_ & _ & Hlen & Hin & _) | (Hempty & _)].
    + split; [done |]. intros i Hi. by apply Hin.
    + destruct Hempty; done.
  - intros (i & Hi & Hge). unfold segment_fundi.
    by rewrite (segment_labels_Raise _ _ _ i Hsul Hi Hge).
  - intros Hvalid ->. unfold segment_fundi.
    destruct (segment_labels_total _ _ bg Hvalid) as [[a k] ->]. simpl.
    unfold segment_output. destruct (bool_decide (0 < k)%nat); by eexists.
Qed.

Lemma segment_fundi_length_witness :
  (exists i, nonbackground (-1) Fixtures.fundus_per_fold i) /\
  Fixtures.sulci <> [] /\
  length Fixtures.fundus_per_fold = 6%nat /\
  length Fixtures.sulci = 8%nat /\
  segment_fundi (WR:=Fixtures.writer) Fixtures.disk Fixtures.fundus_per_fold
    Fixtures.sulci "/data/lh.sulci.vtk" false (-1) false
    = Ok (Fixtures.fundus_per_sulcus, 3%nat, None, Fixtures.disk) /\
  length Fixtures.fundus_per_sulcus = length Fixtures.sulci /\
  forall i, nonbackground (-1) Fixtures.fundus_per_fold i ->
            (i < length Fixtures.sulci)%nat.
Proof.
  assert (Hsome : exists i, nonbackground (-1) Fixtures.fundus_per_fold i).
  { exists 1%nat, 7. split; [reflexivity | lia]. }
  assert (Hsul : Fixtures.sulci <> []) by discriminate.
  assert (Hrun : segment_fundi (WR:=Fixtures.writer) Fixtures.disk
                   Fixtures.fundus_per_fold Fixtures.sulci
                   "/data/lh.sulci.vtk" false (-1) false
                 = Ok (Fixtures.fundus_per_sulcus, 3%nat, None,
                       Fixtures.disk)) by reflexivity.
  split; [exact Hsome |]. split; [exact Hsul |].
  split; [reflexivity |]. split; [reflexivity |]. split; [exact Hrun |].
  exact (proj1 (segment_fundi_length Fixtures.disk Fixtures.fundus_per_fold
                  Fixtures.sulci "/data/lh.sulci.vtk" false (-1) false
                  Hsome Hsul) _ _ _ _ Hrun).
Defined.

(** * extract_fundi *)

Section ExtractFacts.
Context {V : Type} {SC : Scalar V} {RD : VtkReader V} {WR : VtkWriter}
        {FT : FundusTools V}.

Lemma skeleton_in_folds_Ok (folds : list Z) (bg : Z)
    (skeletons indices_skel : list nat) :
  skeleton_in_folds folds bg skeletons = Ok indices_skel ->
  forall x, x ∈ indices_skel <-> x ∈ skeletons /\ nonbackground bg folds x.
Proof.
  revert indices_skel.
  induction skeletons as [|y skeletons IH]; intros idx Hidx x;
    simpl in Hidx.
  - injection Hidx as <-. rewrite !elem_of_nil. tauto.
  - destruct (folds !! y) as [v|] eqn:Hy; [|discriminate].
    inv_bind Hidx. injection Hidx as <-.
    specialize (IH _ Ha x). unfold label_neq.
    destruct (bool_decide (v <> bg)) eqn:Hv.
    + apply bool_decide_eq_true in Hv.
      rewrite !elem_of_cons, IH. split.
      * intros [-> | [Hin Hnb]]; [|tauto].
        split; [by left | by exists v].
      * intros [[-> | Hin] Hnb]; [by left | tauto].
    + apply bool_decide_eq_false in Hv.
      rewrite elem_of_cons, IH. split; [tauto |].
      intros [[-> | Hin] Hnb]; [|tauto].
      destruct Hnb as (v' & Hv' & Hne).
      rewrite Hy in Hv'. injection Hv' as <-. destruct (Hv Hne).
Qed.

(** Lines 183-187: the array is the fold labeling, as float64 holds it, on
    the skeleton vertices that lie in a fold, and background elsewhere. *)
Lemma label_fundi_Ok (n_points : nat) (folds : list Z) (bg : Z)
    (skeletons : list nat) (fundus_per_fold : list Z) (n : nat) :
  label_fundi n_points folds bg skeletons = Ok (fundus_per_fold, n) ->
  length fundus_per_fold = n_points /\
  n = count_labels bg fundus_per_fold /\
  forall v,
    (v ∈ skeletons /\ nonbackground bg folds v ->
     exists label,
       folds !! v = Some label /\ label <> bg /\
       fundus_per_fold !! v = Some (float64_round label)) /\
    (~ (v ∈ skeletons /\ nonbackground bg folds v) ->
     (v < n_points)%nat -> fundus_per_fold !! v = Some bg).
Proof.
  unfold label_fundi. intros Hlab.
  inv_bind Hlab. rename a into idx. inv_bind Hlab. rename a into vals.
  inv_bind Hlab. injection Hlab as -> <-.
  pose proof (skeleton_in_folds_Ok _ _ _ _ Ha) as Hidx.
  pose proof (np_put_Ok _ _ _ _ _ _ (np_take_Ok _ _ _ Ha0) Ha1)
    as (Hlen & _ & Hlook).
  unfold np_ones_times in *. rewrite length_replicate in Hlen.
  split; [done |]. split; [done |]. intros v. split.
  - intros Hv. destruct (proj2 Hv) as (label & Hlabel & Hne).
    apply Hidx in Hv. exists label. split; [done |]. split; [done |].
    rewrite Hlook, decide_True, Hlabel by done. simpl.
    by rewrite float64_label_round.
  - intros Hv Hlt. rewrite <- Hidx in Hv.
    rewrite Hlook, decide_False by done. by apply lookup_replicate_2.
Qed.

(** The output step hands back the array and the count unchanged. *)
Lemma extract_output_Ok (w w' : world) (curv_file : string)
    (a out : list Z) (k n : nat) (save_file : bool) (bg : Z)
    (path : option string) :
  extract_output w curv_file a k save_file bg = Ok (out, n, path, w') ->
  out = a /\ n = k.
Proof.
  unfold extract_output. intros Hout.
  destruct (bool_decide (0 < k)%nat); [|by injection Hout as <- <- _ _].
  destruct save_file; [|by injection Hout as <- <- _ _].
  inv_bind Hout.
  destruct (path_exists a0 _); [|discriminate].
  by injection Hout as <- <- _ _.
Qed.

Lemma extract_fundi_Ok (w w' : world) (folds : list Z)
    (curv_file depth_file : string) (min_separation : Z) (erode_ratio : V)
    (erode_min_size : Z) (save_file : bool) (bg : Z) (verbose : bool)
    (fundus_per_fold : list Z) (n : nat) (path : option string) :
  extract_fundi w folds curv_file depth_file min_separation erode_ratio
    erode_min_size save_file bg verbose
    = Ok (fundus_per_fold, n, path, w') ->
  extract_labels w folds curv_file depth_file min_separation erode_ratio
    erode_min_size bg = Ok (fundus_per_fold, n) /\
  extract_output w curv_file fundus_per_fold n save_file bg
    = Ok (fundus_per_fold, n, path, w').
Proof.
  unfold extract_fundi. intros Hext. inv_bind Hext.
  destruct a as [a k].
  destruct (extract_output_Ok _ _ _ _ _ _ _ _ _ _ Hext) as [-> ->]. done.
Qed.

Lemma extract_labels_Ok (w : world) (folds : list Z)
    (curv_file depth_file : string) (min_separation : Z) (erode_ratio : V)
    (erode_min_size : Z) (bg : Z) (fundus_per_fold : list Z) (n : nat) :
  extract_labels w folds curv_file depth_file min_separation erode_ratio
    erode_min_size bg = Ok (fundus_per_fold, n) ->
  exists m skeletons,
    load_inputs w curv_file depth_file = Ok m /\
    fold_loop m folds min_separation erode_ratio erode_min_size bg
      (unique_fold_IDs folds bg) [] = Ok skeletons /\
    label_fundi (npoints m) folds bg skeletons = Ok (fundus_per_fold, n).
Proof.
  unfold extract_labels. intros Hext.
  inv_bind Hext. rename a into m. inv_bind Hext. eauto.
Qed.

Lemma elem_of_unique_fold_IDs (folds : list Z) (bg x : Z) :
  x ∈ unique_fold_IDs folds bg <-> x <> bg /\ x ∈ folds.
Proof.
  unfold unique_fold_IDs.
  by rewrite list_elem_of_filter, elem_of_np_unique.
Qed.

Lemma unique_fold_IDs_NoDup (folds : list Z) (bg : Z) :
  NoDup (unique_fold_IDs folds bg).
Proof. apply NoDup_filter, np_unique_NoDup. Qed.

Lemma unique_fold_IDs_background (folds : list Z) (bg : Z) :
  Forall (fun x => x = bg) folds -> unique_fold_IDs folds bg = [].
Proof.
  intros Hall. apply elem_of_nil_inv. intros x.
  rewrite elem_of_unique_fold_IDs. intros (Hne & Hin).
  eapply Forall_forall in Hall; [|exact Hin]. done.
Qed.

(** Each fold of the loop has a vertex: the test of line 147 holds. *)
Lemma fold_indices_nonempty (folds : list Z) (bg fold_ID : Z) :
  fold_ID ∈ unique_fold_IDs folds bg ->
  indices_where (label_eq fold_ID) folds <> [].
Proof.
  intros Hid Hnil. apply elem_of_unique_fold_IDs in Hid as [_ Hin].
  apply list_elem_of_lookup in Hin as [i Hi].
  apply elem_of_indices_eq in Hi. rewrite Hnil in Hi.
  by apply elem_of_nil in Hi.
Qed.

End ExtractFacts.




(** C8.  When every fold label is the background value, [extract_fundi]
    fails only if loading the inputs fails; otherwise it returns the array
    that is background at every vertex, the count 0 and no file, and leaves
    the file system as it was, also when [save_file] is set. *)
Theorem extract_fundi_all_background {V : Type} {SC : Scalar V}
    {RD : VtkReader V} {WR : VtkWriter} {FT : FundusTools V} (w : world)
    (folds : list Z) (curv_file depth_file : string) (min_separation : Z)
    (erode_ratio : V) (erode_min_size : Z) (save_file : bool) (bg : Z)
    (verbose : bool) :
  Forall (fun x => x = bg) folds ->
  (forall m, load_inputs w curv_file depth_file = Ok m ->
             extract_fundi w folds curv_file depth_file min_separation
               erode_ratio erode_min_size save_file bg verbose
             = Ok (replicate (npoints m) bg, 0%nat, None, w)) /\
  (forall e, load_inputs w curv_file depth_file = Raise e ->
             extract_fundi w folds curv_file depth_file min_separation
               erode_ratio erode_min_size save_file bg verbose
             = Raise e).
Proof.
  intros Hall. unfold extract_fundi, extract_labels. split.
  - intros m ->. simpl.
    rewrite (unique_fold_IDs_background _ _ Hall). simpl.
    unfold label_fundi, np_ones_times. simpl.
    rewrite count_labels_background; [done |].
    apply Forall_forall. intros x Hx. by apply elem_of_replicate_inv in Hx.
  - by intros e ->.
Qed.

Lemma extract_fundi_all_background_witness :
  Forall (fun x => x = -1) [-1; -1; -1; -1; -1; -1] /\
  extract_fundi (SC:=Fixtures.scalar_Z) (RD:=Fixtures.reader)
    (WR:=Fixtures.writer) (FT:=Fixtures.tools) Fixtures.disk
    [-1; -1; -1; -1; -1; -1] "/data/lh.curv.vtk" "/data/lh.depth.vtk"
    10 1 1 true (-1) false
  = Ok (replicate 6 (-1), 0%nat, None, Fixtures.disk).
Proof.
  assert (Hall : Forall (fun x => x = -1) [-1; -1; -1; -1; -1; -1])
    by (repeat constructor).
  split; [exact Hall |].
  refine (proj1 (extract_fundi_all_background (SC:=Fixtures.scalar_Z)
                   (RD:=Fixtures.reader) (WR:=Fixtures.writer)
                   (FT:=Fixtures.tools) Fixtures.disk _ "/data/lh.curv.vtk"
                   "/data/lh.depth.vtk" 10 1 1 true (-1) false Hall)
            (Mesh _ _ 6%nat _ _ _ _) _).
  vm_compute. reflexivity.
Defined.

(** C6.  Whenever [extract_fundi] returns: with a count of 0 it returns no
    file name and leaves the file system as it was, whatever [save_file];
    with [save_file] set and a positive count, [rewrite_scalars] has been
    called on the returned array for the file fundus_per_fold.vtk of the
    working directory, that name is returned, and the file exists
    afterwards.  When the file does not exist after that call,
    [extract_fundi] raises IOError instead of returning. *)
Theorem extract_fundi_output {V : Type} {SC : Scalar V} {RD : VtkReader V}
    {WR : VtkWriter} {FT : FundusTools V} (w : world) (folds : list Z)
    (curv_file depth_file : string) (min_separation : Z) (erode_ratio : V)
    (erode_min_size : Z) (save_file : bool) (bg : Z) (verbose : bool) :
  let file := os_path_join (cwd w) "fundus_per_fold.vtk" in
  (forall fundus_per_fold n path w',
     extract_fundi w folds curv_file depth_file min_separation erode_ratio
       erode_min_size save_file bg verbose
       = Ok (fundus_per_fold, n, path, w') ->
     (n = 0%nat -> path = None /\ w' = w) /\
     (save_file = true -> (0 < n)%nat ->
      path = Some file /\
      rewrite_scalars w curv_file file fundus_per_fold "fundi" [] bg = Ok w' /\
      path_exists w' file = true))
  /\
  (forall fundus_per_fold n w1,
     extract_labels w folds curv_file depth_file min_separation erode_ratio
       erode_min_size bg = Ok (fundus_per_fold, n) ->
     save_file = true -> (0 < n)%nat ->
     rewrite_scalars w curv_file file fundus_per_fold "fundi" [] bg = Ok w1 ->
     path_exists w1 file = false ->
     extract_fundi w folds curv_file depth_file min_separation erode_ratio
       erode_min_size save_file bg verbose
       = Raise (IOError (file +:+ " not found"))).
Proof.
  intros file. split.
  - intros fundus_per_fold n path w' Hext.
    apply extract_fundi_Ok in Hext as [_ Hout].
    unfold extract_output in Hout. fold file in Hout. split.
    + intros ->. simpl in Hout. by injection Hout as <- <-.
    + intros -> Hpos. rewrite bool_decide_eq_true_2 in Hout by done.
      inv_bind Hout. rename a into w1.
      destruct (path_exists w1 file) eqn:Hfile; [|discriminate].
      injection Hout as <- <-. done.
  - intros fundus_per_fold n w1 Hlab -> Hpos Hwrite Hfile.
    unfold extract_fundi. rewrite Hlab. simpl.
    unfold extract_output. fold file.
    rewrite bool_decide_eq_true_2 by done.
    rewrite Hwrite. simpl. by rewrite Hfile.
Qed.

Lemma extract_fundi_output_witness :
  (exists w',
     extract_fundi (SC:=Fixtures.scalar_Z) (RD:=Fixtures.reader)
       (WR:=Fixtures.writer) (FT:=Fixtures.tools) Fixtures.disk
       Fixtures.folds "/data/lh.curv.vtk" "/data/lh.depth.vtk" 10 1 1 true
       (-1) false
       = Ok (Fixtures.fundus_per_fold, 2%nat,
             Some "/work/fundus_per_fold.vtk"%string, w') /\
     path_exists w' "/work/fundus_per_fold.vtk" = true) /\
  (path_exists Fixtures.disk "/work/fundus_per_fold.vtk" = false /\
   extract_fundi (SC:=Fixtures.scalar_Z) (RD:=Fixtures.reader)
     (WR:=Fixtures.silent_writer) (FT:=Fixtures.tools) Fixtures.disk
     Fixtures.folds "/data/lh.curv.vtk" "/data/lh.depth.vtk" 10 1 1 true
     (-1) false
     = Raise (IOError "/work/fundus_per_fold.vtk not found")).
Proof.
  split.
  - eexists.
    assert (Hrun : extract_fundi (SC:=Fixtures.scalar_Z)
                     (RD:=Fixtures.reader) (WR:=Fixtures.writer)
                     (FT:=Fixtures.tools) Fixtures.disk Fixtures.folds
                     "/data/lh.curv.vtk" "/data/lh.depth.vtk" 10 1 1 true
                     (-1) false
                   = Ok (Fixtures.fundus_per_fold, 2%nat,
                         Some "/work/fundus_per_fold.vtk"%string, _))
      by (vm_compute; reflexivity).
    split; [exact Hrun |].
    refine (proj2 (proj2 (proj2 (proj1
              (extract_fundi_output (WR:=Fixtures.writer) _ _ _ _ _ _ _ _ _ _)
              _ _ _ _ Hrun) eq_refl _))); simpl; lia.
  - assert (Hfile : path_exists Fixtures.disk "/work/fundus_per_fold.vtk"
                    = false) by reflexivity.
    split; [exact Hfile |].
    refine (proj2 (extract_fundi_output (SC:=Fixtures.scalar_Z)
                     (RD:=Fixtures.reader) (WR:=Fixtures.silent_writer)
                     (FT:=Fixtures.tools) Fixtures.disk Fixtures.folds
                     "/data/lh.curv.vtk" "/data/lh.depth.vtk" 10 1 1 true
                     (-1) false)
              Fixtures.fundus_per_fold 2%nat Fixtures.disk _ eq_refl _ _
              Hfile).
    + vm_compute. reflexivity.
    + lia.
    + reflexivity.
Defined.

(** * The folds behind the skeleton vertices *)

Section SkeletonFacts.
Context {V : Type} {SC : Scalar V} {FT : FundusTools V}.
Variables (m : mesh V) (folds : list Z) (min_separation : Z)
          (erode_ratio : V) (erode_min_size : Z) (bg : Z).

(** One pass of the loop adds vertices of the skeleton of its fold only;
    removing the vertices that complete faces adds none. *)
Lemma fold_step_elem (skeletons skeletons' : list nat) (fold_ID : Z) :
  fold_step m folds min_separation erode_ratio erode_min_size bg skeletons
    fold_ID = Ok skeletons' ->
  forall x, x ∈ skeletons' ->
    x ∈ skeletons \/
    exists skeleton,
      fold_skeleton m (indices_where (label_eq fold_ID) folds) min_separation
        erode_ratio erode_min_size bg = Ok skeleton /\
      x ∈ skeleton.
Proof.
  unfold fold_step. intros Hstep x Hx.
  destruct (bool_decide (indices_where (label_eq fold_ID) folds <> []));
    [|injection Hstep as <-; by left].
  inv_bind Hstep. rename a into skeleton. injection Hstep as <-.
  assert (Hin : x ∈ (if bool_decide (skeleton <> [])
                     then skeletons ++ skeleton else skeletons)).
  { destruct (bool_decide (find_complete_faces _ _ <> [])); [|done].
    unfold frozenset_difference in Hx.
    apply list_elem_of_difference in Hx as [Hx _].
    by rewrite elem_of_remove_dups in Hx. }
  destruct (bool_decide (skeleton <> [])); [|by left].
  apply elem_of_app in Hin as [Hin|Hin]; [by left | right; eauto].
Qed.

Hypothesis within_mask : skeleton_within_mask FT.

(** The skeleton of a fold lies in the fold. *)
Lemma fold_skeleton_in_fold (indices_fold skeleton : list nat) (x : nat) :
  fold_skeleton m indices_fold min_separation erode_ratio erode_min_size bg
    = Ok skeleton ->
  x ∈ skeleton -> x ∈ indices_fold.
Proof.
  unfold fold_skeleton. intros Hskel Hx.
  destruct (find_outer_endpoints _ _ _ _ _ _) as [outer tracks].
  inv_bind Hskel. rename a into B. injection Hskel as <-.
  apply within_mask in Hx as (y & Hy & Hne).
  apply np_fill_Ok in Ha as (_ & Hlook). rewrite Hlook in Hy.
  destruct (decide (x ∈ indices_fold)) as [|Hnot]; [done |].
  unfold np_ones_times in Hy. apply lookup_replicate_1 in Hy as [-> _].
  done.
Qed.

Lemma fold_loop_elem (fold_IDs : list Z) (skeletons skeletons' : list nat) :
  fold_loop m folds min_separation erode_ratio erode_min_size bg fold_IDs
    skeletons = Ok skeletons' ->
  forall x, x ∈ skeletons' ->
    x ∈ skeletons \/
    exists fold_ID,
      fold_ID ∈ fold_IDs /\ folds !! x = Some fold_ID /\
      produced_skeleton m folds min_separation erode_ratio erode_min_size
        bg fold_ID = true.
Proof.
  revert skeletons.
  induction fold_IDs as [|fold_ID rest IH]; intros skeletons Hloop x Hx;
    simpl in Hloop.
  - injection Hloop as <-. by left.
  - inv_bind Hloop. rename a into skeletons1.
    destruct (IH _ Hloop x Hx) as [Hin | (id & Hid & Hfold & Hprod)].
    + destruct (fold_step_elem _ _ _ Ha x Hin)
        as [Hold | (skeleton & Hskel & Hxs)]; [by left |].
      right. exists fold_ID. split; [by left |]. split.
      * by apply elem_of_indices_eq, (fold_skeleton_in_fold _ skeleton).
      * unfold produced_skeleton. rewrite Hskel.
        destruct skeleton; [by apply elem_of_nil in Hxs | done].
    + right. exists id. split; [by right | done].
Qed.

End SkeletonFacts.

Lemma fixture_tools_within_mask : skeleton_within_mask Fixtures.tools.
Proof.
  intros B nl outer inner vals ratio min_size steps vtk bg verbose x Hx.
  simpl in Hx. by apply elem_of_indices_neq.
Qed.



(** * The inner-anchor threshold *)

Section ThresholdFacts.
Context {V : Type} {SC : Scalar V} {RD : VtkReader V} {WR : VtkWriter}
        {FT : FundusTools V}.
Variables (m : mesh V) (folds : list Z) (min_separation : Z)
          (erode_ratio : V) (erode_min_size : Z) (bg : Z).
Variable finder : list (V * V * V) -> list V -> Z -> V -> list nat.

Hypothesis same_at_thr :
  forall pts vals sep,
    finder pts vals sep (thr m) = find_max_values pts vals sep (thr m).

Lemma fold_skeleton_finder (indices_fold : list nat) :
  fold_skeleton (FT:=with_find_max_values FT finder) m indices_fold
    min_separation erode_ratio erode_min_size bg
  = fold_skeleton m indices_fold min_separation erode_ratio erode_min_size
      bg.
Proof. unfold fold_skeleton. simpl. by rewrite same_at_thr. Qed.

Lemma fold_step_finder (skeletons : list nat) (fold_ID : Z) :
  fold_step (FT:=with_find_max_values FT finder) m folds min_separation
    erode_ratio erode_min_size bg skeletons fold_ID
  = fold_step m folds min_separation erode_ratio erode_min_size bg
      skeletons fold_ID.
Proof. unfold fold_step. by rewrite fold_skeleton_finder. Qed.

Lemma fold_loop_finder (fold_IDs : list Z) (skeletons : list nat) :
  fold_loop (FT:=with_find_max_values FT finder) m folds min_separation
    erode_ratio erode_min_size bg fold_IDs skeletons
  = fold_loop m folds min_separation erode_ratio erode_min_size bg fold_IDs
      skeletons.
Proof.
  revert skeletons. induction fold_IDs as [|fold_ID rest IH];
    intros skeletons; simpl; [done |].
  rewrite fold_step_finder.
  destruct (fold_step _ _ _ _ _ _ _ _) as [skeletons'|e]; simpl; [|done].
  apply IH.
Qed.

End ThresholdFacts.

Lemma load_inputs_Ok {V : Type} {SC : Scalar V} {RD : VtkReader V}
    {FT : FundusTools V} (w : world) (curv_file depth_file : string)
    (m : mesh V) :
  load_inputs w curv_file depth_file = Ok m ->
  exists vtk name,
    isfile w curv_file = true /\
    read_vtk w curv_file true true = Ok vtk /\
    read_scalars w depth_file true true = Ok (depths m, name) /\
    np_mul (vtk_scalars vtk) (depths m) = Ok (values m) /\
    thr m = threshold (filter (fun x => vpos x = true) (values m)).
Proof.
  unfold load_inputs. intros Hload.
  destruct (isfile w curv_file); [|discriminate].
  inv_bind Hload. rename a into vtk. inv_bind Hload.
  destruct a as [depths0 name]. inv_bind Hload. rename a into values0.
  inv_bind Hload. injection Hload as <-. simpl. by exists vtk, name.
Qed.

(** ** The calls of find_max_values *)

Section CallFacts.
Context {V : Type} {FT : FundusTools V}.
Variables (m : mesh V) (folds : list Z) (min_separation : Z)
          (erode_ratio : V) (erode_min_size : Z) (bg : Z).

Let call : finder_call V :=
  FinderCall (points m) (values m) min_separation (thr m).

(** Recording the calls does not change what is computed. *)
Lemma fold_skeleton_calls_eq (indices_fold : list nat) :
  fold_skeleton_calls m indices_fold min_separation erode_ratio
    erode_min_size bg
  = ([call],
     fold_skeleton m indices_fold min_separation erode_ratio erode_min_size
       bg).
Proof.
  unfold fold_skeleton_calls, fold_skeleton, recorded_find_max_values.
  by destruct (find_outer_endpoints _ _ _ _ _ _).
Qed.

Lemma fold_step_calls_eq (skeletons : list nat) (fold_ID : Z) :
  fold_step_calls m folds min_separation erode_ratio erode_min_size bg
    skeletons fold_ID
  = (if bool_decide (indices_where (label_eq fold_ID) folds <> [])
     then [call] else [],
     fold_step m folds min_separation erode_ratio erode_min_size bg skeletons
       fold_ID).
Proof.
  unfold fold_step_calls, fold_step.
  destruct (bool_decide _); [|done]. by rewrite fold_skeleton_calls_eq.
Qed.

Lemma fold_loop_calls_result (fold_IDs : list Z) (skeletons : list nat) :
  (fold_loop_calls m folds min_separation erode_ratio erode_min_size bg
     fold_IDs skeletons).2
  = fold_loop m folds min_separation erode_ratio erode_min_size bg fold_IDs
      skeletons.
Proof.
  revert skeletons. induction fold_IDs as [|fold_ID rest IH];
    intros skeletons; simpl; [done |].
  rewrite fold_step_calls_eq.
  destruct (fold_step _ _ _ _ _ _ _ _) as [skeletons'|e]; simpl; [|done].
  specialize (IH skeletons').
  by destruct (fold_loop_calls _ _ _ _ _ _ _ _).
Qed.

(** Every call is made with the threshold of the mesh. *)
Lemma fold_loop_calls_all (fold_IDs : list Z) (skeletons : list nat) :
  Forall (fun c => c = call)
    (fold_loop_calls m folds min_separation erode_ratio erode_min_size bg
       fold_IDs skeletons).1.
Proof.
  revert skeletons. induction fold_IDs as [|fold_ID rest IH];
    intros skeletons; simpl; [constructor |].
  rewrite fold_step_calls_eq.
  assert (Hstep : Forall (fun c => c = call)
                    (if bool_decide
                          (indices_where (label_eq fold_ID) folds <> [])
                     then [call] else [])).
  { destruct (bool_decide _); by repeat constructor. }
  destruct (fold_step _ _ _ _ _ _ _ _) as [skeletons'|e]; simpl; [|done].
  specialize (IH skeletons').
  destruct (fold_loop_calls _ _ _ _ _ _ _ _) as [calls' looped]. simpl in *.
  by apply Forall_app.
Qed.

(** A loop that returns has made one call for each fold that has a
    vertex. *)
Lemma fold_loop_calls_length (fold_IDs : list Z) (skeletons : list nat) :
  (forall fold_ID, fold_ID ∈ fold_IDs ->
                   indices_where (label_eq fold_ID) folds <> []) ->
  returns (fold_loop m folds min_separation erode_ratio erode_min_size bg
             fold_IDs skeletons) ->
  length (fold_loop_calls m folds min_separation erode_ratio erode_min_size
            bg fold_IDs skeletons).1
  = length fold_IDs.
Proof.
  revert skeletons. induction fold_IDs as [|fold_ID rest IH];
    intros skeletons Hfolds Hret; simpl; [done |].
  rewrite fold_step_calls_eq.
  rewrite bool_decide_eq_true_2 by (apply Hfolds; by left).
  simpl in Hret.
  destruct (fold_step _ _ _ _ _ _ _ _) as [skeletons'|e]; simpl in *.
  - specialize (IH skeletons').
    destruct (fold_loop_calls _ _ _ _ _ _ _ _) as [calls' looped].
    simpl in *. f_equal. apply IH; [|done].
    intros id Hid. apply Hfolds. by right.
  - by destruct Hret.
Qed.

End CallFacts.

Lemma Forall_eq_replicate {A : Type} (x : A) (l : list A) :
  Forall (fun y => y = x) l -> l = replicate (length l) x.
Proof. induction 1 as [|y l -> _ IH]; simpl; [done | by f_equal]. Qed.

(** C2.  Once the inputs are loaded, the threshold is
    [median(P) + 2 * median_abs_dev(P)] for [P] the entries [x > 0] of the
    elementwise product of the curvature and depth arrays of the whole mesh.
    The loop over the folds calls [find_max_values] with this threshold, and
    with no other: every call it makes has the arguments
    [(points, values, min_separation, thr)], and when the loop returns it has
    made exactly one such call for each fold.  The inner anchors of every
    fold are the result of that call, and replacing [find_max_values] by any
    function that agrees with it at this threshold leaves the result of
    [extract_fundi] unchanged. *)
Theorem extract_fundi_single_threshold {V : Type} {SC : Scalar V}
    {RD : VtkReader V} {WR : VtkWriter} {FT : FundusTools V} (w : world)
    (folds : list Z) (curv_file depth_file : string) (min_separation : Z)
    (erode_ratio : V) (erode_min_size : Z) (save_file : bool) (bg : Z)
    (verbose : bool) (m : mesh V) :
  load_inputs w curv_file depth_file = Ok m ->
  let P := filter (fun x => vpos x = true) (values m) in
  let call := FinderCall (points m) (values m) min_separation (thr m) in
  let loop :=
    fold_loop_calls m folds min_separation erode_ratio erode_min_size bg
      (unique_fold_IDs folds bg) [] in
  (exists vtk name,
     read_vtk w curv_file true true = Ok vtk /\
     read_scalars w depth_file true true = Ok (depths m, name) /\
     np_mul (vtk_scalars vtk) (depths m) = Ok (values m)) /\
  thr m = vadd (np_median P) (vmul (of_int 2) (median_abs_dev P)) /\
  (loop.2 = fold_loop m folds min_separation erode_ratio erode_min_size bg
              (unique_fold_IDs folds bg) [] /\
   Forall (fun c => c = call) loop.1 /\
   (returns loop.2 ->
    loop.1 = replicate (length (unique_fold_IDs folds bg)) call)) /\
  (forall indices_fold,
     fold_skeleton m indices_fold min_separation erode_ratio erode_min_size bg
     = B ← np_fill (np_ones_times bg (npoints m)) indices_fold 1;
       Ok (connect_points_erosion B (neighbor_lists m)
             (find_outer_endpoints indices_fold (neighbor_lists m) (values m)
                (depths m) min_separation false).1
             (find_max_values (points m) (values m) min_separation (thr m))
             (values m) erode_ratio erode_min_size [] "" bg false)) /\
  (forall finder,
     (forall pts vals sep,
        finder pts vals sep (thr m) = find_max_values pts vals sep (thr m)) ->
     extract_fundi (FT:=with_find_max_values FT finder) w folds curv_file
       depth_file min_separation erode_ratio erode_min_size save_file bg
       verbose
     = extract_fundi w folds curv_file depth_file min_separation erode_ratio
         erode_min_size save_file bg verbose).
Proof.
  intros Hload P call loop.
  destruct (load_inputs_Ok _ _ _ _ Hload)
    as (vtk & name & _ & Hvtk & Hdepth & Hmul & Hthr).
  split; [by exists vtk, name |]. split; [done |]. split; [|split].
  - pose proof (fold_loop_calls_all m folds min_separation erode_ratio
                  erode_min_size bg (unique_fold_IDs folds bg) []) as Hall.
    split; [apply fold_loop_calls_result |]. split; [done |].
    intros Hret. unfold loop in Hret. rewrite fold_loop_calls_result in Hret.
    rewrite (Forall_eq_replicate call loop.1 Hall). f_equal.
    apply fold_loop_calls_length; [|done].
    intros fold_ID. apply fold_indices_nonempty.
  - intros indices_fold. unfold fold_skeleton.
    by destruct (find_outer_endpoints _ _ _ _ _ _).
  - intros finder Hsame. unfold extract_fundi, extract_labels.
    change (load_inputs (FT:=with_find_max_values FT finder) w curv_file
              depth_file) with (load_inputs w curv_file depth_file).
    rewrite Hload. simpl. by rewrite fold_loop_finder.
Qed.

Lemma extract_fundi_single_threshold_witness :
  exists m,
    load_inputs (SC:=Fixtures.scalar_Z) (RD:=Fixtures.reader)
      (FT:=Fixtures.anchored_tools) Fixtures.disk "/data/lh.curv.vtk"
      "/data/lh.depth.vtk" = Ok m /\
    values m = [2; 2; 9; 4; 10; 6] /\ thr m = 11 /\
    (fold_loop_calls (FT:=Fixtures.anchored_tools) m Fixtures.folds 10 1 1
       (-1) (unique_fold_IDs Fixtures.folds (-1)) []).1
    = [FinderCall (points m) (values m) 10 11;
       FinderCall (points m) (values m) 10 11] /\
    extract_fundi (SC:=Fixtures.scalar_Z) (RD:=Fixtures.reader)
      (WR:=Fixtures.writer)
      (FT:=with_find_max_values Fixtures.anchored_tools
             Fixtures.anchored_finder_at_11)
      Fixtures.disk Fixtures.folds "/data/lh.curv.vtk" "/data/lh.depth.vtk"
      10 1 1 false (-1) false
    = extract_fundi (SC:=Fixtures.scalar_Z) (RD:=Fixtures.reader)
        (WR:=Fixtures.writer) (FT:=Fixtures.anchored_tools) Fixtures.disk
        Fixtures.folds "/data/lh.curv.vtk" "/data/lh.depth.vtk" 10 1 1 false
        (-1) false /\
    extract_fundi (SC:=Fixtures.scalar_Z) (RD:=Fixtures.reader)
      (WR:=Fixtures.writer) (FT:=Fixtures.anchored_tools) Fixtures.disk
      Fixtures.folds "/data/lh.curv.vtk" "/data/lh.depth.vtk" 10 1 1 false
      (-1) false
    = Ok ([7; -1; 7; -1; 9; 9], 2%nat, None, Fixtures.disk).
Proof.
  eexists.
  assert (Hload : load_inputs (SC:=Fixtures.scalar_Z) (RD:=Fixtures.reader)
                    (FT:=Fixtures.anchored_tools) Fixtures.disk
                    "/data/lh.curv.vtk" "/data/lh.depth.vtk" = Ok _)
    by (vm_compute; reflexivity).
  split; [exact Hload |]. split; [reflexivity |]. split; [reflexivity |].
  pose proof (extract_fundi_single_threshold (WR:=Fixtures.writer) _
                Fixtures.folds _ _ 10 1 1 false (-1) false _ Hload)
    as (_ & _ & (_ & _ & Hcalls) & _ & Hfinder).
  split; [apply Hcalls; by eexists |].
  split; [|vm_compute; reflexivity].
  apply (Hfinder Fixtures.anchored_finder_at_11).
  intros pts vals sep. reflexivity.
Defined.

(** The inner anchors found at the threshold do reach the result: with a
    finder that finds nothing the skeletons of the same run lose the
    vertices 2 and 5. *)
Example inner_anchors_reach_the_result :
  extract_fundi (SC:=Fixtures.scalar_Z) (RD:=Fixtures.reader)
    (WR:=Fixtures.writer)
    (FT:=with_find_max_values Fixtures.anchored_tools
           Fixtures.finder_of_nothing)
    Fixtures.disk Fixtures.folds "/data/lh.curv.vtk" "/data/lh.depth.vtk"
    10 1 1 false (-1) false
  = Ok ([7; -1; -1; -1; 9; -1], 2%nat, None, Fixtures.disk).
Proof. vm_compute. reflexivity. Qed.

(** * Missing input files *)

(** A missing curvature file stops [extract_fundi] at line 121. *)
Lemma extract_fundi_missing_curv_file {V : Type} {SC : Scalar V}
    {RD : VtkReader V} {WR : VtkWriter} {FT : FundusTools V} (w : world)
    (folds : list Z) (curv_file depth_file : string) (min_separation : Z)
    (erode_ratio : V) (erode_min_size : Z) (save_file : bool) (bg : Z)
    (verbose : bool) :
  isfile w curv_file = false ->
  extract_fundi w folds curv_file depth_file min_separation erode_ratio
    erode_min_size save_file bg verbose
  = Raise (IOError (curv_file +:+ " doesn't exist!")).
Proof.
  intros Hcurv. unfold extract_fundi, extract_labels, load_inputs.
  by rewrite Hcurv.
Qed.

(** The test of line 122 is on [curv_file]: when the curvature file exists,
    [read_scalars] is called on [depth_file] whether or not that file
    exists, and its outcome is the outcome of the call when it raises. *)
Lemma extract_fundi_depth_file_unchecked {V : Type} {SC : Scalar V}
    {RD : VtkReader V} {WR : VtkWriter} {FT : FundusTools V} (w : world)
    (folds : list Z) (curv_file depth_file : string) (min_separation : Z)
    (erode_ratio : V) (erode_min_size : Z) (save_file : bool) (bg : Z)
    (verbose : bool) (vtk : vtk_data V) (e : error) :
  isfile w curv_file = true ->
  read_vtk w curv_file true true = Ok vtk ->
  read_scalars w depth_file true true = Raise e ->
  extract_fundi w folds curv_file depth_file min_separation erode_ratio
    erode_min_size save_file bg verbose
  = Raise e.
Proof.
  intros Hcurv Hvtk Hdepth.
  unfold extract_fundi, extract_labels, load_inputs.
  by rewrite Hcurv, Hvtk, Hdepth.
Qed.

(** C3.  The curvature file exists and the depth file does not; the reader
    gives no data for a path that is not a file.  [extract_fundi] does not
    raise IOError for the depth file: it goes past both tests, reads both
    files, and fails with ValueError on the product of the six curvature
    values and the empty depth array. *)
Example extract_fundi_missing_depth_file :
  isfile Fixtures.disk_without_depth "/data/lh.curv.vtk" = true /\
  path_exists Fixtures.disk_without_depth "/data/lh.depth.vtk" = false /\
  extract_fundi (SC:=Fixtures.scalar_Z) (RD:=Fixtures.reader)
    (WR:=Fixtures.writer) (FT:=Fixtures.tools) Fixtures.disk_without_depth
    Fixtures.folds "/data/lh.curv.vtk" "/data/lh.depth.vtk" 10 1 1 false (-1)
    false
  = Raise ValueError.
Proof. repeat split; reflexivity. Qed.

(** * Further properties of the two functions *)

(** ** Arrays *)

Lemma np_fill_Raise (a : list Z) (idx : list nat) (v : Z) (i : nat) :
  i ∈ idx -> (length a <= i)%nat -> np_fill a idx v = Raise IndexError.
Proof.
  revert a. induction idx as [|j idx IH]; intros a Hin Hge.
  - by apply elem_of_nil in Hin.
  - simpl. destruct (decide (j < length a)%nat) as [Hlt|]; [|done].
    apply elem_of_cons in Hin as [->|Hin]; [lia |].
    apply IH; [done |]. by rewrite length_insert.
Qed.

Lemma np_fill_total (a : list Z) (idx : list nat) (v : Z) :
  Forall (fun i => i < length a)%nat idx -> returns (np_fill a idx v).
Proof.
  revert a. induction idx as [|j idx IH]; intros a Hall; simpl.
  - by eexists.
  - inversion Hall; subst. rewrite decide_True by done.
    apply IH. by rewrite length_insert.
Qed.

Lemma np_fill_error (a : list Z) (idx : list nat) (v : Z) (e : error) :
  np_fill a idx v = Raise e -> e = IndexError.
Proof.
  revert a. induction idx as [|j idx IH]; intros a Hfill; simpl in Hfill.
  - discriminate.
  - destruct (decide (j < length a)%nat); [by eapply IH | congruence].
Qed.

(** The count is 0 exactly when the array is background everywhere. *)
Lemma count_labels_zero (bg : Z) (a : list Z) :
  count_labels bg a = 0%nat <-> Forall (fun x => x = bg) a.
Proof.
  split; [|apply count_labels_background].
  unfold count_labels. intros Hlen. apply length_zero_iff_nil in Hlen.
  apply Forall_forall. intros x Hx.
  destruct (decide (x = bg)) as [|Hne]; [done |].
  assert (Hin : x ∈ filter (fun x => x <> bg) (np_unique a)).
  { apply list_elem_of_filter. split; [done |]. by apply elem_of_np_unique. }
  rewrite Hlen in Hin. by apply elem_of_nil in Hin.
Qed.


(** ** segment_fundi: relabeling an array that already carries the labels *)




(** X8.  When [fundus_per_fold] has non-background vertices, all within the
    sulcus labeling, and the sulcus labeling is background at each of them,
    [segment_fundi] returns an array of the length of the sulcus labeling
    that is background everywhere (not the empty list), the count 0 and no
    file, and leaves the file system alone, whatever [save_file]. *)
Theorem segment_fundi_outside_sulci {WR : VtkWriter} (w : world)
    (fundus_per_fold sulci : list Z) (vtk_file : string) (save_file : bool)
    (bg : Z) (verbose : bool) :
  (exists i, nonbackground bg fundus_per_fold i) ->
  (forall i, nonbackground bg fundus_per_fold i -> sulci !! i = Some bg) ->
  segment_fundi w fundus_per_fold sulci vtk_file save_file bg verbose
    = Ok (replicate (length sulci) bg, 0%nat, None, w).
Proof.
  intros Hsome Hbg.
  destruct (segment_labels_total fundus_per_fold sulci bg) as [[out k] Hseg].
  { intros i Hi. apply Hbg in Hi. by apply lookup_lt_Some in Hi. }
  unfold segment_fundi. rewrite Hseg. simpl.
  apply segment_labels_inv in Hseg as (-> & Hcases).
  destruct Hcases as [(_ & _ & Hlen & Hin & Hout) | (Hempty & _)].
  - assert (out = replicate (length sulci) bg) as ->.
    { apply list_eq. intros i.
      destruct (decide (i < length sulci)%nat) as [Hlt|Hge].
      - rewrite lookup_replicate_2 by done.
        destruct (decide (nonbackground bg fundus_per_fold i)) as [Hnb|Hnot].
        + destruct (Hin i Hnb) as [_ ->]. rewrite (Hbg i Hnb). simpl.
          by rewrite float64_label_background.
        + by apply Hout.
      - rewrite (proj1 (lookup_replicate_None _ _ _)) by lia.
        apply lookup_ge_None. lia. }
    rewrite count_labels_background.
    + done.
    + apply Forall_forall. intros x Hx. by apply elem_of_replicate_inv in Hx.
  - destruct Hempty as [Hnone | ->]; [done |].
    destruct Hsome as [i Hi]. apply Hbg in Hi. done.
Qed.

Lemma segment_fundi_outside_sulci_witness :
  (exists i, nonbackground (-1) [-1; -1; -1; -1; 9; -1] i) /\
  (forall i, nonbackground (-1) [-1; -1; -1; -1; 9; -1] i ->
             Fixtures.sulci !! i = Some (-1)) /\
  segment_fundi (WR:=Fixtures.writer) Fixtures.disk [-1; -1; -1; -1; 9; -1]
    Fixtures.sulci "/data/lh.sulci.vtk" true (-1) false
    = Ok (replicate 8 (-1), 0%nat, None, Fixtures.disk).
Proof.
  assert (Hsome : exists i, nonbackground (-1) [-1; -1; -1; -1; 9; -1] i).
  { exists 4%nat, 9. split; [reflexivity | lia]. }
  assert (Hbg : forall i, nonbackground (-1) [-1; -1; -1; -1; 9; -1] i ->
                          Fixtures.sulci !! i = Some (-1)).
  { intros i (x & Hx & Hne).
    do 6 (destruct i as [|i]; [simpl in Hx; try congruence; reflexivity |]).
    discriminate. }
  split; [exact Hsome |]. split; [exact Hbg |].
  exact (segment_fundi_outside_sulci Fixtures.disk _ Fixtures.sulci
           "/data/lh.sulci.vtk" true (-1) false Hsome Hbg).
Defined.

(** ** segment_fundi: the output file *)

(** X6.  [segment_fundi] writes nothing unless it is asked to and the sulcus
    file exists: with [save_file] unset, or with a [vtk_file] that does not
    exist, every call that returns gives no file name and leaves the file
    system as it was; a missing [vtk_file] is not an error. *)
Theorem segment_fundi_no_file {WR : VtkWriter} (w w' : world)
    (fundus_per_fold sulci out : list Z) (vtk_file : string)
    (save_file verbose : bool) (bg : Z) (n : nat) (path : option string) :
  save_file = false \/ path_exists w vtk_file = false ->
  (segment_fundi w fundus_per_fold sulci vtk_file save_file bg verbose
     = Ok (out, n, path, w') -> path = None /\ w' = w) /\
  (returns (segment_labels fundus_per_fold sulci bg) ->
   returns
     (segment_fundi w fundus_per_fold sulci vtk_file save_file bg verbose)).
Proof.
  intros Hoff.
  assert (Hcond : save_file && path_exists w vtk_file = false).
  { destruct Hoff as [-> | ->]; [done | by rewrite andb_false_r]. }
  unfold segment_fundi, segment_output. split.
  - intros Hseg. inv_bind Hseg. destruct a as [a k]. rewrite Hcond in Hseg.
    destruct (bool_decide (0 < k)%nat); by injection Hseg as _ _ <- <-.
  - intros [[a k] ->]. simpl. rewrite Hcond.
    destruct (bool_decide (0 < k)%nat); by eexists.
Qed.

Lemma segment_fundi_no_file_witness :
  (true = false \/ path_exists Fixtures.disk "/data/rh.sulci.vtk" = false) /\
  segment_fundi (WR:=Fixtures.writer) Fixtures.disk Fixtures.fundus_per_fold
    Fixtures.sulci "/data/rh.sulci.vtk" true (-1) false
    = Ok (Fixtures.fundus_per_sulcus, 3%nat, None, Fixtures.disk) /\
  @None string = None /\ Fixtures.disk = Fixtures.disk.
Proof.
  assert (Hoff : true = false \/
                 path_exists Fixtures.disk "/data/rh.sulci.vtk" = false)
    by (right; reflexivity).
  assert (Hrun : segment_fundi (WR:=Fixtures.writer) Fixtures.disk
                   Fixtures.fundus_per_fold Fixtures.sulci
                   "/data/rh.sulci.vtk" true (-1) false
                 = Ok (Fixtures.fundus_per_sulcus, 3%nat, None,
                       Fixtures.disk)) by reflexivity.
  split; [exact Hoff |]. split; [exact Hrun |].
  exact (proj1 (segment_fundi_no_file _ _ _ _ _ _ _ _ _ _ _ Hoff) Hrun).
Defined.

(** X7.  With [save_file] set, an existing [vtk_file] and a positive count:
    whenever [segment_fundi] returns, [rewrite_scalars] has been called on
    the returned array for the file fundus_per_sulcus.vtk of the working
    directory, with [vtk_file] as the mesh to copy, that name is returned and
    the file exists afterwards; when the file does not exist after that call,
    [segment_fundi] raises IOError. *)
Theorem segment_fundi_output {WR : VtkWriter} (w : world)
    (fundus_per_fold sulci : list Z) (vtk_file : string) (bg : Z)
    (verbose : bool) :
  path_exists w vtk_file = true ->
  let file := os_path_join (cwd w) "fundus_per_sulcus.vtk" in
  (forall out n path w',
     segment_fundi w fundus_per_fold sulci vtk_file true bg verbose
       = Ok (out, n, path, w') ->
     (0 < n)%nat ->
     path = Some file /\
     rewrite_scalars w vtk_file file out "fundus_per_sulcus" [] bg = Ok w' /\
     path_exists w' file = true)
  /\
  (forall out n w1,
     segment_labels fundus_per_fold sulci bg = Ok (out, n) ->
     (0 < n)%nat ->
     rewrite_scalars w vtk_file file out "fundus_per_sulcus" [] bg = Ok w1 ->
     path_exists w1 file = false ->
     segment_fundi w fundus_per_fold sulci vtk_file true bg verbose
       = Raise (IOError (file +:+ " not found"))).
Proof.
  intros Hvtk file. unfold segment_fundi, segment_output. fold file. split.
  - intros out n path w' Hseg Hpos. inv_bind Hseg. destruct a as [a k].
    rewrite Hvtk in Hseg. simpl in Hseg.
    destruct (bool_decide (0 < k)%nat) eqn:Hk.
    + inv_bind Hseg. rename a0 into w1.
      destruct (path_exists w1 file) eqn:Hfile; [|discriminate].
      by injection Hseg as <- <- <- <-.
    + apply bool_decide_eq_false in Hk. injection Hseg as _ <- _ _. lia.
  - intros out n w1 Hlab Hpos Hwrite Hfile. rewrite Hlab. simpl.
    rewrite bool_decide_eq_true_2 by done.
    rewrite Hvtk. simpl. rewrite Hwrite. simpl. by rewrite Hfile.
Qed.

Lemma segment_fundi_output_witness :
  path_exists Fixtures.disk "/data/lh.sulci.vtk" = true /\
  (exists w',
     segment_fundi (WR:=Fixtures.writer) Fixtures.disk
       Fixtures.fundus_per_fold Fixtures.sulci "/data/lh.sulci.vtk" true
       (-1) false
       = Ok (Fixtures.fundus_per_sulcus, 3%nat,
             Some "/work/fundus_per_sulcus.vtk"%string, w') /\
     path_exists w' "/work/fundus_per_sulcus.vtk" = true) /\
  segment_fundi (WR:=Fixtures.silent_writer) Fixtures.disk
    Fixtures.fundus_per_fold Fixtures.sulci "/data/lh.sulci.vtk" true (-1)
    false
    = Raise (IOError "/work/fundus_per_sulcus.vtk not found").
Proof.
  assert (Hvtk : path_exists Fixtures.disk "/data/lh.sulci.vtk" = true)
    by reflexivity.
  split; [exact Hvtk |]. split.
  - eexists.
    assert (Hrun : segment_fundi (WR:=Fixtures.writer) Fixtures.disk
                     Fixtures.fundus_per_fold Fixtures.sulci
                     "/data/lh.sulci.vtk" true (-1) false
                   = Ok (Fixtures.fundus_per_sulcus, 3%nat,
                         Some "/work/fundus_per_sulcus.vtk"%string, _))
      by (vm_compute; reflexivity).
    split; [exact Hrun |].
    refine (proj2 (proj2 (proj1
              (segment_fundi_output (WR:=Fixtures.writer) _ _ _ _ _ _ Hvtk)
              _ _ _ _ Hrun _))). lia.
  - refine (proj2 (segment_fundi_output (WR:=Fixtures.silent_writer)
                     Fixtures.disk Fixtures.fundus_per_fold Fixtures.sulci
                     "/data/lh.sulci.vtk" (-1) false Hvtk)
              Fixtures.fundus_per_sulcus 3%nat Fixtures.disk _ _ _ _);
      [reflexivity | lia | reflexivity | reflexivity].
Defined.



(** ** extract_fundi: the folds the loop goes through *)

(** X11.  The loop goes through every fold exactly once: each fold number of
    [unique_fold_IDs] has at least one vertex (the test of line 147 never
    fails), every vertex with a non-background label is a vertex of the fold
    of one of these numbers, and no vertex is in two folds. *)
Theorem fold_indices_partition (folds : list Z) (bg : Z) :
  (forall fold_ID, fold_ID ∈ unique_fold_IDs folds bg ->
                   indices_where (label_eq fold_ID) folds <> []) /\
  (forall i, nonbackground bg folds i <->
             exists fold_ID,
               fold_ID ∈ unique_fold_IDs folds bg /\
               i ∈ indices_where (label_eq fold_ID) folds) /\
  (forall i fold_ID fold_ID',
     i ∈ indices_where (label_eq fold_ID) folds ->
     i ∈ indices_where (label_eq fold_ID') folds ->
     fold_ID = fold_ID').
Proof.
  split; [|split].
  - intros id Hid Hnil.
    apply elem_of_unique_fold_IDs in Hid as [_ Hin].
    apply list_elem_of_lookup in Hin as [i Hi].
    apply elem_of_indices_eq in Hi. rewrite Hnil in Hi.
    by apply elem_of_nil in Hi.
  - intros i. split.
    + intros (x & Hx & Hne). exists x. split.
      * apply elem_of_unique_fold_IDs. split; [done |].
        by apply list_elem_of_lookup_2 in Hx.
      * by apply elem_of_indices_eq.
    + intros (id & Hid & Hi). apply elem_of_indices_eq in Hi.
      apply elem_of_unique_fold_IDs in Hid as [Hne _]. by exists id.
  - intros i id id' Hi Hi'. apply elem_of_indices_eq in Hi, Hi'. congruence.
Qed.

(** ** extract_fundi: index errors and returning calls *)

Section LoopFacts.
Context {V : Type} {SC : Scalar V} {FT : FundusTools V}.
Variables (m : mesh V) (folds : list Z) (min_separation : Z)
          (erode_ratio : V) (erode_min_size : Z) (bg : Z).

Lemma fold_skeleton_Raise (indices_fold : list nat) (i : nat) :
  i ∈ indices_fold -> (npoints m <= i)%nat ->
  fold_skeleton m indices_fold min_separation erode_ratio erode_min_size bg
    = Raise IndexError.
Proof.
  intros Hin Hge. unfold fold_skeleton.
  destruct (find_outer_endpoints _ _ _ _ _ _) as [outer tracks].
  rewrite (np_fill_Raise _ _ _ i); [done | done |].
  unfold np_ones_times. by rewrite length_replicate.
Qed.

Lemma fold_skeleton_total (indices_fold : list nat) :
  Forall (fun i => i < npoints m)%nat indices_fold ->
  returns (fold_skeleton m indices_fold min_separation erode_ratio
             erode_min_size bg).
Proof.
  intros Hall. unfold fold_skeleton.
  destruct (find_outer_endpoints _ _ _ _ _ _) as [outer tracks].
  destruct (np_fill_total (np_ones_times bg (npoints m)) indices_fold 1)
    as [B ->]; [|by eexists].
  unfold np_ones_times. by rewrite length_replicate.
Qed.

Lemma fold_skeleton_error (indices_fold : list nat) (e : error) :
  fold_skeleton m indices_fold min_separation erode_ratio erode_min_size bg
    = Raise e -> e = IndexError.
Proof.
  unfold fold_skeleton.
  destruct (find_outer_endpoints _ _ _ _ _ _) as [outer tracks].
  destruct (np_fill _ _ _) as [B|e'] eqn:Hfill; simpl; [discriminate |].
  intros [= <-]. by eapply np_fill_error.
Qed.

Lemma fold_step_error (skeletons : list nat) (fold_ID : Z) (e : error) :
  fold_step m folds min_separation erode_ratio erode_min_size bg skeletons
    fold_ID = Raise e -> e = IndexError.
Proof.
  unfold fold_step. destruct (bool_decide _); [|discriminate].
  destruct (fold_skeleton _ _ _ _ _ _) as [s|e'] eqn:Hskel; simpl;
    [discriminate |].
  intros [= <-]. by eapply fold_skeleton_error.
Qed.

(** The loop fails if one of its folds has a vertex that the mesh has not. *)
Lemma fold_loop_Raise (fold_IDs : list Z) (skeletons : list nat)
    (fold_ID : Z) (i : nat) :
  fold_ID ∈ fold_IDs -> folds !! i = Some fold_ID -> (npoints m <= i)%nat ->
  fold_loop m folds min_separation erode_ratio erode_min_size bg fold_IDs
    skeletons = Raise IndexError.
Proof.
  intros Hid Hi Hge. revert skeletons.
  induction fold_IDs as [|id rest IH]; intros skeletons;
    [by apply elem_of_nil in Hid |].
  simpl.
  destruct (fold_step m folds min_separation erode_ratio erode_min_size bg
              skeletons id) as [skeletons'|e] eqn:Hstep; simpl.
  - apply elem_of_cons in Hid as [<-|Hid]; [|by apply IH].
    unfold fold_step in Hstep.
    assert (Hin : i ∈ indices_where (label_eq fold_ID) folds)
      by by apply elem_of_indices_eq.
    rewrite bool_decide_eq_true_2 in Hstep.
    + by rewrite (fold_skeleton_Raise _ i Hin Hge) in Hstep.
    + intros Hnil. rewrite Hnil in Hin. by apply elem_of_nil in Hin.
  - by rewrite (fold_step_error _ _ _ Hstep).
Qed.

(** The loop returns if the vertices of its folds are vertices of the
    mesh. *)
Lemma fold_loop_total (fold_IDs : list Z) (skeletons : list nat) :
  (forall fold_ID i, fold_ID ∈ fold_IDs -> folds !! i = Some fold_ID ->
                     (i < npoints m)%nat) ->
  returns (fold_loop m folds min_separation erode_ratio erode_min_size bg
             fold_IDs skeletons).
Proof.
  revert skeletons. induction fold_IDs as [|id rest IH];
    intros skeletons Hvalid; simpl; [by eexists |].
  assert (Hstep : returns (fold_step m folds min_separation erode_ratio
                             erode_min_size bg skeletons id)).
  { unfold fold_step. destruct (bool_decide _); [|by eexists].
    destruct (fold_skeleton_total (indices_where (label_eq id) folds))
      as [s ->]; [|by eexists].
    apply Forall_forall. intros i Hi. apply elem_of_indices_eq in Hi.
    apply (Hvalid id); [by left | done]. }
  destruct Hstep as [skeletons' ->]. simpl. apply IH.
  intros id' i Hid'. apply Hvalid. by right.
Qed.

End LoopFacts.

Lemma skeleton_in_folds_all (folds : list Z) (bg : Z) (skeletons : list nat) :
  (forall x, x ∈ skeletons -> nonbackground bg folds x) ->
  skeleton_in_folds folds bg skeletons = Ok skeletons.
Proof.
  induction skeletons as [|x rest IH]; intros Hall; simpl; [done |].
  destruct (Hall x) as (v & Hv & Hne); [by left |].
  rewrite Hv, IH by (intros y Hy; apply Hall; by right). simpl.
  unfold label_neq. by rewrite bool_decide_eq_true_2.
Qed.

Lemma label_fundi_total (n_points : nat) (folds : list Z) (bg : Z)
    (skeletons : list nat) :
  (forall x, x ∈ skeletons ->
             nonbackground bg folds x /\ (x < n_points)%nat) ->
  returns (label_fundi n_points folds bg skeletons).
Proof.
  intros Hall. unfold label_fundi.
  rewrite skeleton_in_folds_all by (intros x Hx; by apply Hall). simpl.
  destruct (np_take_total folds skeletons) as [vals Hvals].
  { apply Forall_forall. intros x Hx.
    destruct (Hall x Hx) as [(v & Hv & _) _]. by apply lookup_lt_Some in Hv. }
  rewrite Hvals. simpl.
  destruct (np_put_total bg (np_ones_times bg n_points) skeletons vals)
    as [fundus_per_fold ->]; [| |by eexists].
  - by eapply Forall2_length, np_take_Ok.
  - apply Forall_forall. intros x Hx. unfold np_ones_times.
    rewrite length_replicate. by apply Hall.
Qed.

(** X2.  Once the inputs are loaded, a fold label array with a
    non-background label at an index that is not a vertex of the curvature
    mesh makes [extract_fundi] raise IndexError (the assignment to the fold
    mask at line 169). *)
Theorem extract_fundi_fold_beyond_mesh {V : Type} {SC : Scalar V}
    {RD : VtkReader V} {WR : VtkWriter} {FT : FundusTools V} (w : world)
    (folds : list Z) (curv_file depth_file : string) (min_separation : Z)
    (erode_ratio : V) (erode_min_size : Z) (save_file : bool) (bg : Z)
    (verbose : bool) (m : mesh V) (i : nat) :
  load_inputs w curv_file depth_file = Ok m ->
  nonbackground bg folds i -> (npoints m <= i)%nat ->
  extract_fundi w folds curv_file depth_file min_separation erode_ratio
    erode_min_size save_file bg verbose = Raise IndexError.
Proof.
  intros Hload (x & Hx & Hne) Hge.
  unfold extract_fundi, extract_labels. rewrite Hload. simpl.
  rewrite (fold_loop_Raise m folds min_separation erode_ratio erode_min_size
             bg _ [] x i); [done | | done | done].
  apply elem_of_unique_fold_IDs. split; [done |].
  by apply list_elem_of_lookup_2 in Hx.
Qed.

Lemma extract_fundi_fold_beyond_mesh_witness :
  (exists m, load_inputs (SC:=Fixtures.scalar_Z) (RD:=Fixtures.reader)
               (FT:=Fixtures.tools) Fixtures.disk "/data/lh.curv.vtk"
               "/data/lh.depth.vtk" = Ok m /\ (npoints m <= 6)%nat) /\
  nonbackground (-1) [7; 7; 7; -1; 9; 9; 9] 6 /\
  extract_fundi (SC:=Fixtures.scalar_Z) (RD:=Fixtures.reader)
    (WR:=Fixtures.writer) (FT:=Fixtures.tools) Fixtures.disk
    [7; 7; 7; -1; 9; 9; 9] "/data/lh.curv.vtk" "/data/lh.depth.vtk" 10 1 1
    false (-1) false
  = Raise IndexError.
Proof.
  assert (Hload : load_inputs (SC:=Fixtures.scalar_Z) (RD:=Fixtures.reader)
                    (FT:=Fixtures.tools) Fixtures.disk "/data/lh.curv.vtk"
                    "/data/lh.depth.vtk"
                  = Ok (Mesh (vtk_points Fixtures.curv_mesh)
                          (vtk_faces Fixtures.curv_mesh) 6%nat
                          [2; 1; 3; 1; 2; 1] [2; 2; 9; 4; 10; 6] 11
                          [[1; 2]; [0; 2; 3; 4]; [0; 1; 3]; [1; 2; 4; 5];
                           [1; 3; 5]; [3; 4]]%nat)) by reflexivity.
  assert (Hnb : nonbackground (-1) [7; 7; 7; -1; 9; 9; 9] 6).
  { exists 9. split; [reflexivity | lia]. }
  split; [eexists; split; [exact Hload | simpl; lia] |].
  split; [exact Hnb |].
  refine (extract_fundi_fold_beyond_mesh (WR:=Fixtures.writer) _ _ _ _ 10 1 1
            false (-1) false _ 6%nat Hload Hnb _).
  simpl. lia.
Defined.

(** X12.  When the skeleton connector returns vertices of the fold mask it is
    given, every vertex the loop has collected has a non-background fold
    label: the selection of line 183 keeps the whole list, in its order. *)
Theorem skeleton_filter_keeps_all {V : Type} {FT : FundusTools V}
    (m : mesh V) (folds : list Z) (min_separation : Z)
    (erode_ratio : V) (erode_min_size : Z) (bg : Z) (skeletons : list nat) :
  skeleton_within_mask FT ->
  fold_loop m folds min_separation erode_ratio erode_min_size bg
    (unique_fold_IDs folds bg) [] = Ok skeletons ->
  skeleton_in_folds folds bg skeletons = Ok skeletons.
Proof.
  intros Hmask Hloop. apply skeleton_in_folds_all. intros x Hx.
  destruct (fold_loop_elem _ _ _ _ _ _ Hmask _ _ _ Hloop x Hx)
    as [Hnil | (id & Hid & Hfold & _)]; [by apply elem_of_nil in Hnil |].
  apply elem_of_unique_fold_IDs in Hid as [Hne _]. by exists id.
Qed.

Lemma skeleton_filter_keeps_all_witness :
  skeleton_within_mask Fixtures.tools /\
  fold_loop (FT:=Fixtures.tools)
    (Mesh (vtk_points Fixtures.curv_mesh) (vtk_faces Fixtures.curv_mesh)
       6%nat [2; 1; 3; 1; 2; 1] [2; 2; 9; 4; 10; 6] 11
       [[1; 2]; [0; 2; 3; 4]; [0; 1; 3]; [1; 2; 4; 5]; [1; 3; 5]; [3; 4]]%nat)
    Fixtures.folds 10 1 1 (-1) (unique_fold_IDs Fixtures.folds (-1)) []
  = Ok [1; 2; 4; 5]%nat /\
  skeleton_in_folds Fixtures.folds (-1) [1; 2; 4; 5]%nat
  = Ok [1; 2; 4; 5]%nat.
Proof.
  assert (Hloop : fold_loop (FT:=Fixtures.tools)
                    (Mesh (vtk_points Fixtures.curv_mesh)
                       (vtk_faces Fixtures.curv_mesh) 6%nat
                       [2; 1; 3; 1; 2; 1] [2; 2; 9; 4; 10; 6] 11
                       [[1; 2]; [0; 2; 3; 4]; [0; 1; 3]; [1; 2; 4; 5];
                        [1; 3; 5]; [3; 4]]%nat)
                    Fixtures.folds 10 1 1 (-1)
                    (unique_fold_IDs Fixtures.folds (-1)) []
                  = Ok [1; 2; 4; 5]%nat) by reflexivity.
  split; [exact fixture_tools_within_mask |]. split; [exact Hloop |].
  exact (skeleton_filter_keeps_all _ _ _ _ _ _ _ fixture_tools_within_mask
           Hloop).
Defined.

(** X3.  When the skeleton connector returns vertices of the fold mask it is
    given, the inputs load, and every vertex with a non-background fold label
    is a vertex of the curvature mesh, [extract_fundi] without [save_file]
    returns: none of its array accesses is out of range. *)
Theorem extract_fundi_returns {V : Type} {SC : Scalar V}
    {RD : VtkReader V} {WR : VtkWriter} {FT : FundusTools V} (w : world)
    (folds : list Z) (curv_file depth_file : string) (min_separation : Z)
    (erode_ratio : V) (erode_min_size : Z) (bg : Z) (verbose : bool)
    (m : mesh V) :
  skeleton_within_mask FT ->
  load_inputs w curv_file depth_file = Ok m ->
  (forall i, nonbackground bg folds i -> (i < npoints m)%nat) ->
  returns (extract_fundi w folds curv_file depth_file min_separation
             erode_ratio erode_min_size false bg verbose).
Proof.
  intros Hmask Hload Hvalid.
  unfold extract_fundi, extract_labels. rewrite Hload. simpl.
  destruct (fold_loop_total m folds min_separation erode_ratio erode_min_size
              bg (unique_fold_IDs folds bg) []) as [skeletons Hloop].
  { intros id i Hid Hi. apply Hvalid.
    apply elem_of_unique_fold_IDs in Hid as [Hne _]. by exists id. }
  rewrite Hloop. simpl.
  destruct (label_fundi_total (npoints m) folds bg skeletons)
    as [[fundus_per_fold n] ->].
  - intros x Hx.
    destruct (fold_loop_elem _ _ _ _ _ _ Hmask _ _ _ Hloop x Hx)
      as [Hnil | (id & Hid & Hfold & _)]; [by apply elem_of_nil in Hnil |].
    apply elem_of_unique_fold_IDs in Hid as [Hne _].
    assert (Hnb : nonbackground bg folds x) by by exists id.
    split; [done | by apply Hvalid].
  - simpl. unfold extract_output. destruct (bool_decide _); by eexists.
Qed.

Lemma extract_fundi_returns_witness :
  skeleton_within_mask Fixtures.tools /\
  (exists m, load_inputs (SC:=Fixtures.scalar_Z) (RD:=Fixtures.reader)
               (FT:=Fixtures.tools) Fixtures.disk "/data/lh.curv.vtk"
               "/data/lh.depth.vtk" = Ok m /\
             forall i, nonbackground (-1) [7; 7; -1; 9] i ->
                       (i < npoints m)%nat) /\
  returns
    (extract_fundi (SC:=Fixtures.scalar_Z) (RD:=Fixtures.reader)
       (WR:=Fixtures.writer) (FT:=Fixtures.tools) Fixtures.disk [7; 7; -1; 9]
       "/data/lh.curv.vtk" "/data/lh.depth.vtk" 10 1 1 false (-1) false).
Proof.
  assert (Hload : load_inputs (SC:=Fixtures.scalar_Z) (RD:=Fixtures.reader)
                    (FT:=Fixtures.tools) Fixtures.disk "/data/lh.curv.vtk"
                    "/data/lh.depth.vtk"
                  = Ok (Mesh (vtk_points Fixtures.curv_mesh)
                          (vtk_faces Fixtures.curv_mesh) 6%nat
                          [2; 1; 3; 1; 2; 1] [2; 2; 9; 4; 10; 6] 11
                          [[1; 2]; [0; 2; 3; 4]; [0; 1; 3]; [1; 2; 4; 5];
                           [1; 3; 5]; [3; 4]]%nat)) by reflexivity.
  assert (Hvalid : forall i, nonbackground (-1) [7; 7; -1; 9] i ->
                             (i < 6)%nat).
  { intros i (x & Hx & _). apply lookup_lt_Some in Hx. simpl in Hx. lia. }
  split; [exact fixture_tools_within_mask |].
  split; [eexists; split; [exact Hload | exact Hvalid] |].
  exact (extract_fundi_returns (WR:=Fixtures.writer) _ _ _ _ 10 1 1 (-1)
           false _ fixture_tools_within_mask Hload Hvalid).
Defined.

(** ** extract_fundi: the count *)



(** X15.  The count returned by [extract_fundi] is 0 exactly when the
    returned array is background at every vertex. *)
Theorem extract_fundi_count_zero {V : Type} {SC : Scalar V}
    {RD : VtkReader V} {WR : VtkWriter} {FT : FundusTools V} (w w' : world)
    (folds : list Z) (curv_file depth_file : string) (min_separation : Z)
    (erode_ratio : V) (erode_min_size : Z) (save_file : bool) (bg : Z)
    (verbose : bool) (fundus_per_fold : list Z) (n : nat)
    (path : option string) :
  extract_fundi w folds curv_file depth_file min_separation erode_ratio
    erode_min_size save_file bg verbose = Ok (fundus_per_fold, n, path, w') ->
  n = 0%nat <-> Forall (fun x => x = bg) fundus_per_fold.
Proof.
  intros Hext. apply extract_fundi_Ok in Hext as [Hext _].
  apply extract_labels_Ok in Hext as (m & skeletons & _ & _ & Hlab).
  apply label_fundi_Ok in Hlab as (_ & -> & _).
  apply count_labels_zero.
Qed.

Lemma extract_fundi_count_zero_witness :
  extract_fundi (SC:=Fixtures.scalar_Z) (RD:=Fixtures.reader)
    (WR:=Fixtures.writer) (FT:=Fixtures.tools) Fixtures.disk
    [-1; -1; -1; -1; -1; -1] "/data/lh.curv.vtk" "/data/lh.depth.vtk" 10 1 1
    false (-1) false
    = Ok (replicate 6 (-1), 0%nat, None, Fixtures.disk) /\
  (0%nat = 0%nat <-> Forall (fun x => x = -1) (replicate 6 (-1))).
Proof.
  assert (Hrun : extract_fundi (SC:=Fixtures.scalar_Z) (RD:=Fixtures.reader)
                   (WR:=Fixtures.writer) (FT:=Fixtures.tools) Fixtures.disk
                   [-1; -1; -1; -1; -1; -1] "/data/lh.curv.vtk"
                   "/data/lh.depth.vtk" 10 1 1 false (-1) false
                 = Ok (replicate 6 (-1), 0%nat, None, Fixtures.disk))
    by (vm_compute; reflexivity).
  split; [exact Hrun |].
  exact (extract_fundi_count_zero _ _ _ _ _ _ _ _ _ _ _ _ _ _ Hrun).
Defined.

(** ** extract_fundi: files *)

(** X5.  Without [save_file], [extract_fundi] writes nothing: every call
    that returns gives no file name and leaves the file system as it was,
    and the call returns whenever the labeling of lines 113-187 does. *)
Theorem extract_fundi_no_file {V : Type} {SC : Scalar V} {RD : VtkReader V}
    {WR : VtkWriter} {FT : FundusTools V} (w : world) (folds : list Z)
    (curv_file depth_file : string) (min_separation : Z) (erode_ratio : V)
    (erode_min_size : Z) (bg : Z) (verbose : bool) :
  (forall fundus_per_fold n path w',
     extract_fundi w folds curv_file depth_file min_separation erode_ratio
       erode_min_size false bg verbose = Ok (fundus_per_fold, n, path, w') ->
     path = None /\ w' = w) /\
  (forall fundus_per_fold n,
     extract_labels w folds curv_file depth_file min_separation erode_ratio
       erode_min_size bg = Ok (fundus_per_fold, n) ->
     extract_fundi w folds curv_file depth_file min_separation erode_ratio
       erode_min_size false bg verbose = Ok (fundus_per_fold, n, None, w)).
Proof.
  split.
  - intros fundus_per_fold n path w' Hext.
    apply extract_fundi_Ok in Hext as [_ Hout]. unfold extract_output in Hout.
    destruct (bool_decide (0 < n)%nat); by injection Hout as <- <-.
  - intros fundus_per_fold n Hlab. unfold extract_fundi. rewrite Hlab. simpl.
    unfold extract_output. by destruct (bool_decide (0 < n)%nat).
Qed.

Lemma extract_fundi_no_file_witness :
  extract_fundi (SC:=Fixtures.scalar_Z) (RD:=Fixtures.reader)
    (WR:=Fixtures.writer) (FT:=Fixtures.tools) Fixtures.disk Fixtures.folds
    "/data/lh.curv.vtk" "/data/lh.depth.vtk" 10 1 1 false (-1) true
    = Ok (Fixtures.fundus_per_fold, 2%nat, None, Fixtures.disk) /\
  @None string = None /\ Fixtures.disk = Fixtures.disk.
Proof.
  assert (Hrun : extract_fundi (SC:=Fixtures.scalar_Z) (RD:=Fixtures.reader)
                   (WR:=Fixtures.writer) (FT:=Fixtures.tools) Fixtures.disk
                   Fixtures.folds "/data/lh.curv.vtk" "/data/lh.depth.vtk"
                   10 1 1 false (-1) true
                 = Ok (Fixtures.fundus_per_fold, 2%nat, None, Fixtures.disk))
    by (vm_compute; reflexivity).
  split; [exact Hrun |].
  exact (proj1 (extract_fundi_no_file (WR:=Fixtures.writer) _ _ _ _ _ _ _ _
                  _) _ _ _ _ Hrun).
Defined.

(** X1.  A curvature file that is missing makes [extract_fundi] raise
    IOError with the message of line 121, before anything is read. *)
Theorem extract_fundi_curv_file_missing {V : Type} {SC : Scalar V}
    {RD : VtkReader V} {WR : VtkWriter} {FT : FundusTools V} (w : world)
    (folds : list Z) (curv_file depth_file : string) (min_separation : Z)
    (erode_ratio : V) (erode_min_size : Z) (save_file : bool) (bg : Z)
    (verbose : bool) :
  isfile w curv_file = false ->
  extract_fundi w folds curv_file depth_file min_separation erode_ratio
    erode_min_size save_file bg verbose
  = Raise (IOError (curv_file +:+ " doesn't exist!")) /\
  forall (RD' : VtkReader V),
    extract_fundi (RD:=RD') w folds curv_file depth_file min_separation
      erode_ratio erode_min_size save_file bg verbose
    = extract_fundi w folds curv_file depth_file min_separation erode_ratio
        erode_min_size save_file bg verbose.
Proof.
  intros Hcurv. unfold extract_fundi, extract_labels, load_inputs.
  rewrite Hcurv. split; [done |]. intros RD'. done.
Qed.

Lemma extract_fundi_curv_file_missing_witness :
  isfile Fixtures.disk "/data/rh.curv.vtk" = false /\
  extract_fundi (SC:=Fixtures.scalar_Z) (RD:=Fixtures.reader)
    (WR:=Fixtures.writer) (FT:=Fixtures.tools) Fixtures.disk Fixtures.folds
    "/data/rh.curv.vtk" "/data/lh.depth.vtk" 10 1 1 true (-1) false
  = Raise (IOError "/data/rh.curv.vtk doesn't exist!").
Proof.
  assert (Hcurv : isfile Fixtures.disk "/data/rh.curv.vtk" = false)
    by reflexivity.
  split; [exact Hcurv |].
  exact (proj1 (extract_fundi_curv_file_missing (SC:=Fixtures.scalar_Z)
                  (RD:=Fixtures.reader) (WR:=Fixtures.writer)
                  (FT:=Fixtures.tools) Fixtures.disk Fixtures.folds
                  "/data/rh.curv.vtk" "/data/lh.depth.vtk" 10 1 1 true (-1)
                  false Hcurv)).
Defined.

(** X14.  When both files are read and the curvature and depth arrays have
    different lengths, neither of them 1, [extract_fundi] raises ValueError
    (the product of line 126), whatever the folds. *)
Theorem extract_fundi_length_mismatch {V : Type} {SC : Scalar V}
    {RD : VtkReader V} {WR : VtkWriter} {FT : FundusTools V} (w : world)
    (folds : list Z) (curv_file depth_file : string) (min_separation : Z)
    (erode_ratio : V) (erode_min_size : Z) (save_file : bool) (bg : Z)
    (verbose : bool) (vtk : vtk_data V) (depth_values : list V)
    (name : string) :
  isfile w curv_file = true ->
  read_vtk w curv_file true true = Ok vtk ->
  read_scalars w depth_file true true = Ok (depth_values, name) ->
  length (vtk_scalars vtk) <> length depth_values ->
  length (vtk_scalars vtk) <> 1%nat -> length depth_values <> 1%nat ->
  extract_fundi w folds curv_file depth_file min_separation erode_ratio
    erode_min_size save_file bg verbose = Raise ValueError.
Proof.
  intros Hcurv Hvtk Hdepth Hne Hc Hd.
  unfold extract_fundi, extract_labels, load_inputs.
  rewrite Hcurv, Hvtk, Hdepth. simpl. unfold np_mul.
  rewrite decide_False by done.
  destruct (vtk_scalars vtk) as [|x [|x' curvs]];
    destruct depth_values as [|y [|y' ds]]; simpl in *; done.
Qed.

Lemma extract_fundi_length_mismatch_witness :
  isfile Fixtures.disk_without_depth "/data/lh.curv.vtk" = true /\
  read_vtk (VtkReader:=Fixtures.reader) Fixtures.disk_without_depth
    "/data/lh.curv.vtk" true true = Ok Fixtures.curv_mesh /\
  read_scalars (VtkReader:=Fixtures.reader) Fixtures.disk_without_depth
    "/data/lh.depth.vtk" true true = Ok ([], ""%string) /\
  length (vtk_scalars Fixtures.curv_mesh) = 6%nat /\
  extract_fundi (SC:=Fixtures.scalar_Z) (RD:=Fixtures.reader)
    (WR:=Fixtures.writer) (FT:=Fixtures.tools) Fixtures.disk_without_depth
    Fixtures.folds "/data/lh.curv.vtk" "/data/lh.depth.vtk" 10 1 1 true (-1)
    false
  = Raise ValueError.
Proof.
  assert (Hcurv : isfile Fixtures.disk_without_depth "/data/lh.curv.vtk"
                  = true) by reflexivity.
  assert (Hvtk : read_vtk (VtkReader:=Fixtures.reader)
                   Fixtures.disk_without_depth "/data/lh.curv.vtk" true true
                 = Ok Fixtures.curv_mesh) by reflexivity.
  assert (Hdepth : read_scalars (VtkReader:=Fixtures.reader)
                     Fixtures.disk_without_depth "/data/lh.depth.vtk" true
                     true = Ok ([], ""%string)) by reflexivity.
  split; [exact Hcurv |]. split; [exact Hvtk |]. split; [exact Hdepth |].
  split; [reflexivity |].
  refine (extract_fundi_length_mismatch (SC:=Fixtures.scalar_Z)
            (RD:=Fixtures.reader) (WR:=Fixtures.writer) (FT:=Fixtures.tools)
            Fixtures.disk_without_depth Fixtures.folds "/data/lh.curv.vtk"
            "/data/lh.depth.vtk" 10 1 1 true (-1) false Fixtures.curv_mesh []
            "" Hcurv Hvtk Hdepth _ _ _); simpl; lia.
Defined.

(** ** extract_fundi followed by segment_fundi *)


